(** * SupaAgent: intent classification, workspace persistence and deployment

    A shallow embedding of the branching logic of the repository:

    - [Chat]      the chat endpoint [POST] of [route.ts] (classification of a
                  turn and synthesis of the reply) with [extractUrl] and
                  [extractAppName];
    - [Upload]    [handleFileUpload] of the IDE component;
    - [Workspace] [openIDEWorkspace], [saveCodeToWorkspace] and
                  [loadCodeFromWorkspace] over the browser's [localStorage]
                  ([createWorkspaceFromFiles], on which nothing below
                  depends, is left out);
    - [Deploy]    the deploy endpoint and [handleDeploy] of the IDE component.

    JavaScript strings are modelled as [string], each character standing for
    one code unit in the range U+0000..U+00FF; on that range [toLowerCase],
    the regular expression classes [\s] and [\w] and case-insensitive
    matching are modelled exactly.  Exceptions are modelled by an outcome
    type, [try]/[catch] by a combinator on it. *)

From Stdlib Require Import Ascii String.
From stdpp Require Import base option list strings pretty gmap fin_maps.

Local Open Scope string_scope.

(** ** Exceptions and the state-and-exception monad *)

Inductive Exn : Type :=
  | TypeError             (* property access on [undefined] or [null] *)
  | SyntaxError           (* a body that is not JSON *)
  | NetworkError          (* [fetch] rejected *)
  | NotReadableError      (* [File.text()] rejected *)
  | QuotaExceededError.   (* [Storage.setItem] could not store the value *)

Inductive Outcome (S A : Type) : Type :=
  | Return (a : A) (s : S)
  | Throw (e : Exn) (s : S).
Arguments Return {S A} a s.
Arguments Throw {S A} e s.

Definition M (S A : Type) : Type := S -> Outcome S A.

Definition ret {S A} (a : A) : M S A := fun s => Return a s.
Definition throw {S A} (e : Exn) : M S A := fun s => Throw e s.
Definition bind {S A B} (m : M S A) (k : A -> M S B) : M S B :=
  fun s => match m s with
           | Return a s' => k a s'
           | Throw e s' => Throw e s'
           end.
(** [try { body } catch (error) { handler }] *)
Definition try_catch {S A} (body : M S A) (handler : Exn -> M S A) : M S A :=
  fun s => match body s with
           | Return a s' => Return a s'
           | Throw e s' => handler e s'
           end.
Definition get {S} : M S S := fun s => Return s s.
Definition modify {S} (f : S -> S) : M S unit := fun s => Return tt (f s).

Notation "x <- m ;; k" := (bind m (fun x => k))
  (at level 100, m at next level, right associativity).
Notation "m ;;; k" := (bind m (fun _ => k))
  (at level 100, right associativity).

(** ** JavaScript string primitives *)

Module Js.

Definition code (c : ascii) : nat := nat_of_ascii c.

(** [String.prototype.toLowerCase] on one code unit of U+0000..U+00FF:
    A-Z and the Latin-1 capitals U+00C0..U+00DE (without U+00D7) move up by
    32, every other code unit is its own lower case. *)
Definition lower_char (c : ascii) : ascii :=
  let n := code c in
  if ((65 <=? n) && (n <=? 90))%nat then ascii_of_nat (n + 32)
  else if ((192 <=? n) && (n <=? 222) && negb (n =? 215))%nat then ascii_of_nat (n + 32)
  else c.

Fixpoint toLowerCase (s : string) : string :=
  match s with
  | EmptyString => EmptyString
  | String c s' => String (lower_char c) (toLowerCase s')
  end.

(** [s.startsWith(p)] *)
Fixpoint startsWith (p s : string) : bool :=
  match p, s with
  | EmptyString, _ => true
  | String a p', String b s' => if Ascii.eqb a b then startsWith p' s' else false
  | String _ _, EmptyString => false
  end.

(** [s.includes(needle)] *)
Fixpoint includes (needle s : string) : bool :=
  if startsWith needle s then true
  else match s with
       | EmptyString => false
       | String _ s' => includes needle s'
       end.

(** [s.endsWith(suffix)] *)
Fixpoint endsWith (suffix s : string) : bool :=
  if String.eqb s suffix then true
  else match s with
       | EmptyString => false
       | String _ s' => endsWith suffix s'
       end.

(** [xs.join(sep)] *)
Fixpoint join (sep : string) (xs : list string) : string :=
  match xs with
  | [] => ""
  | [x] => x
  | x :: rest => x +:+ sep +:+ join sep rest
  end.

(** [s.slice(n)] *)
Fixpoint drop (n : nat) (s : string) : string :=
  match n, s with
  | O, _ => s
  | S n', String _ s' => drop n' s'
  | S _, EmptyString => EmptyString
  end.

(** The class [\s] of a regular expression without the [u] flag, on
    U+0000..U+00FF: TAB, LF, VT, FF, CR, SPACE and NBSP. *)
Definition is_space (c : ascii) : bool :=
  let n := code c in
  (((9 <=? n) && (n <=? 13)) || (n =? 32) || (n =? 160))%nat.

(** The class [\w]: A-Z, a-z, 0-9 and the underscore. *)
Definition is_word (c : ascii) : bool :=
  let n := code c in
  (((65 <=? n) && (n <=? 90)) || ((97 <=? n) && (n <=? 122))
   || ((48 <=? n) && (n <=? 57)) || (n =? 95))%nat.

(** The longest prefix whose characters all satisfy [p]: what a greedy
    [[...]+] consumes when nothing after it can fail. *)
Fixpoint take_while (p : ascii -> bool) (s : string) : string :=
  match s with
  | EmptyString => EmptyString
  | String c s' => if p c then String c (take_while p s') else EmptyString
  end.

(** A literal of a regular expression with the [i] flag: the pattern's
    characters are ASCII letters and the space, so a code unit matches when
    its ASCII lower case is the pattern's. *)
Definition ascii_lower (c : ascii) : ascii :=
  let n := code c in
  if ((65 <=? n) && (n <=? 90))%nat then ascii_of_nat (n + 32) else c.

Fixpoint startsWith_ci (p s : string) : bool :=
  match p, s with
  | EmptyString, _ => true
  | String a p', String b s' =>
      if Ascii.eqb (ascii_lower a) (ascii_lower b) then startsWith_ci p' s' else false
  | String _ _, EmptyString => false
  end.

(** JavaScript truthiness of an optional string: [undefined] and the empty
    string are falsy. *)
Definition truthy (o : option string) : bool :=
  match o with
  | Some s => negb (String.eqb s "")
  | None => false
  end.

(** [a || b] on strings. *)
Definition or_else (o : option string) (d : string) : string :=
  match o with
  | Some s => if String.eqb s "" then d else s
  | None => d
  end.

End Js.

(** ** The chat endpoint ([route.ts], [POST], [extractUrl], [extractAppName]) *)

(** [interface UploadedFile] *)
Module File.
Record t : Type := mk {
  name : string;
  type : string;
  size : N;
  content : option string;
  url : option string
}.
End File.

(** An entry of [MODEL_CONFIGS]. *)
Module ModelConfig.
Record t : Type := mk {
  name : string;
  provider : string
}.
End ModelConfig.

Module Chat.

(** [MODEL_CONFIGS] is imported from [@/config/api-keys]; the endpoint uses
    it through the lookup [MODEL_CONFIGS[model]] and through its entry
    [MODEL_CONFIGS.venice], which are all that is kept of it here. *)
Record Registry : Type := {
  lookup : string -> option ModelConfig.t;
  venice : ModelConfig.t
}.

(** The reply text.  Every constructor stands for one template literal of
    [POST]; its arguments are the values the template interpolates. *)
Inductive Narrative : Type :=
  | ImageText (fileNames : string)
  | ZipText (fileNames : string)
  | FigmaText
  | FilesText (fileNames : string)
  | GithubText
  | WebsiteText
  | BuildText (appName : string)
  | DebugText
  | HelpText.

(** The [metadata] object; a field that is [None] is not set. *)
Record Metadata : Type := {
  openIDE : option bool;
  type : option string;
  attached : option (list File.t);   (* the property [files] *)
  url : option string;
  appName : option string;
  modelUsed : option string;
  provider : option string
}.

(** [interface Message]: a message of the conversation, as the client
    sends it in [history]. *)
Inductive Role : Type := user | assistant.

Module Message.
Record t : Type := mk {
  id : string;
  type : Role;
  content : string;
  timestamp : N;
  metadata : option Metadata;
  files : option (list File.t)
}.
End Message.

(** The parsed body [{ message, model, history, files }]; a field that is
    [None] is absent from the body. *)
Record Request : Type := {
  message : option string;
  model : option string;
  history : list Message.t;
  files : option (list File.t)
}.

(** [metadata = {}] *)
Definition empty_metadata : Metadata :=
  {| openIDE := None; type := None; attached := None; url := None;
     appName := None; modelUsed := None; provider := None |}.

(** The first match of [/(https?:\/\/[^\s]+)/] that starts at the head of
    [s]: after [http] the optional [s] is tried first, and if what follows
    it fails, [://] cannot match at that [s] either. *)
Definition url_at (s : string) : option string :=
  if Js.startsWith "https://" s then
    let rest := Js.take_while (fun c => negb (Js.is_space c)) (Js.drop 8 s) in
    if String.eqb rest "" then None else Some ("https://" +:+ rest)
  else if Js.startsWith "http://" s then
    let rest := Js.take_while (fun c => negb (Js.is_space c)) (Js.drop 7 s) in
    if String.eqb rest "" then None else Some ("http://" +:+ rest)
  else None.

(** [message.match(urlRegex)]: the leftmost match, [None] for [null]. *)
Fixpoint first_url (s : string) : option string :=
  match url_at s with
  | Some u => Some u
  | None => match s with
            | EmptyString => None
            | String _ s' => first_url s'
            end
  end.

Definition extractUrl (message : string) : string :=
  match first_url message with
  | Some u => u
  | None => ""
  end.

(** [/app like (\w+)/i] at the head of [s]: the captured group. *)
Definition app_name_at (s : string) : option string :=
  if Js.startsWith_ci "app like " s then
    let w := Js.take_while Js.is_word (Js.drop 9 s) in
    if String.eqb w "" then None else Some w
  else None.

Fixpoint first_app_name (s : string) : option string :=
  match app_name_at s with
  | Some w => Some w
  | None => match s with
            | EmptyString => None
            | String _ s' => first_app_name s'
            end
  end.

Definition extractAppName (message : string) : string :=
  match first_app_name message with
  | Some w => w
  | None => "the requested application"
  end.

(** The branch [files && files.length > 0]. *)
Definition on_files (fs : list File.t) : Narrative * Metadata :=
  let fileNames := Js.join ", " (map File.name fs) in
  let meta (t : string) :=
    {| openIDE := Some true; type := Some t; attached := Some fs; url := None;
       appName := None; modelUsed := None; provider := None |} in
  if existsb (fun f => Js.startsWith "image/" (File.type f)) fs then
    (ImageText fileNames, meta "image-analysis")
  else if existsb (fun f => Js.endsWith ".zip" (File.name f)) fs then
    (ZipText fileNames, meta "zip-extraction")
  else if existsb (fun f => Js.includes "figma" (File.name f)
                            || Js.includes "figma" (File.type f)) fs then
    (FigmaText, meta "figma-conversion")
  else
    (FilesText fileNames, meta "file-analysis").

(** The branches on the message text. *)
Definition on_message (message : string) : Narrative * Metadata :=
  let meta (t : string) (u a : option string) :=
    {| openIDE := Some true; type := Some t; attached := None; url := u;
       appName := a; modelUsed := None; provider := None |} in
  if Js.includes "clone" (Js.toLowerCase message)
     && (Js.includes "http" message || Js.includes "github" message) then
    if Js.includes "github.com" message then
      (GithubText, meta "github" (Some (extractUrl message)) None)
    else
      (WebsiteText, meta "website" (Some (extractUrl message)) None)
  else if Js.includes "build" (Js.toLowerCase message)
          && Js.includes "app like" (Js.toLowerCase message) then
    let appName := extractAppName message in
    (BuildText appName, meta "build" None (Some appName))
  else if Js.includes "debug" (Js.toLowerCase message)
          || Js.includes "fix" (Js.toLowerCase message) then
    (DebugText, meta "debug" None None)
  else
    (HelpText, empty_metadata).

(** The [if]/[else if] chain of [POST].  With no files, [message] is
    dereferenced: an absent message raises a [TypeError]. *)
Definition respond (r : Request) : Exn + Narrative * Metadata :=
  match files r with
  | Some (f :: fs) => inr (on_files (f :: fs))
  | _ => match message r with
         | Some m => inr (on_message m)
         | None => inl TypeError
         end
  end.

(** The body of a successful reply. *)
Record Reply : Type := {
  response : Narrative;
  metadata : Metadata;
  reply_model : string   (* the property [model] *)
}.

Inductive HttpResponse : Type :=
  | Json200 (body : Reply)
  | Json500 (error : string).

Section Endpoint.
Variable MODEL_CONFIGS : Registry.

(** [MODEL_CONFIGS[model] || MODEL_CONFIGS.venice]: an absent [model] is
    the property key ["undefined"]. *)
Definition selectedModel (model : option string) : ModelConfig.t :=
  let key := match model with Some k => k | None => "undefined" end in
  match lookup MODEL_CONFIGS key with
  | Some c => c
  | None => venice MODEL_CONFIGS
  end.

(** [POST]; [body = None] is a request whose body [request.json()]
    rejects. *)
Definition POST (body : option Request) : HttpResponse :=
  match body with
  | None => Json500 "Failed to process request"
  | Some r =>
      match respond r with
      | inl _ => Json500 "Failed to process request"
      | inr (text, meta) =>
          let selected := selectedModel (model r) in
          Json200
            {| response := text;
               metadata :=
                 {| openIDE := openIDE meta; type := type meta;
                    attached := attached meta; url := url meta;
                    appName := appName meta;
                    modelUsed := Some (ModelConfig.name selected);
                    provider := Some (ModelConfig.provider selected) |};
               reply_model := Js.or_else (model r) "venice" |}
      end
  end.
End Endpoint.

(** The categories of the specification and the value of [metadata.type]
    each one is in the code: [github-clone] is ["github"], [website-clone]
    is ["website"], [app-build] is ["build"], and [none] is a metadata
    object without the property. *)
Inductive Category : Type :=
  | image_analysis | zip_extraction | figma_conversion | file_analysis
  | github_clone | website_clone | app_build | debug | none.

Definition category_of (t : option string) : option Category :=
  match t with
  | None => Some none
  | Some s =>
      if String.eqb s "image-analysis" then Some image_analysis
      else if String.eqb s "zip-extraction" then Some zip_extraction
      else if String.eqb s "figma-conversion" then Some figma_conversion
      else if String.eqb s "file-analysis" then Some file_analysis
      else if String.eqb s "github" then Some github_clone
      else if String.eqb s "website" then Some website_clone
      else if String.eqb s "build" then Some app_build
      else if String.eqb s "debug" then Some debug
      else None
  end.

(** [openWorkspace] of the specification: [metadata.openIDE] is [true]. *)
Definition openWorkspace (m : Metadata) : bool :=
  match openIDE m with Some b => b | None => false end.

End Chat.

(** ** File upload ([handleFileUpload] of the IDE component) *)

Module Upload.

(** A DOM [File]: [text = None] is a file whose [text()] promise rejects. *)
Record RawFile : Type := {
  name : string;
  type : string;
  size : N;
  text : option string
}.

(** [uploadedFiles], and the number of object URLs created so far. *)
Record State : Type := {
  uploadedFiles : list File.t;
  objectUrls : nat
}.

(** [URL.createObjectURL(file)]: a reference no earlier call returned. *)
Definition createObjectURL : M State string :=
  fun s => Return ("blob:" +:+ pretty (objectUrls s))
                  {| uploadedFiles := uploadedFiles s; objectUrls := S (objectUrls s) |}.

(** [await file.text()] *)
Definition read_text (file : RawFile) : M State string :=
  match text file with
  | Some c => ret c
  | None => throw NotReadableError
  end.

(** The body of the loop: the descriptor pushed for [file]. *)
Definition extract (file : RawFile) : M State File.t :=
  if Js.startsWith "image/" (type file) then
    (url <- createObjectURL ;;
     ret (File.mk (name file) (type file) (size file) None (Some url)))
  else if String.eqb (type file) "application/zip" || Js.endsWith ".zip" (name file) then
    (content <- read_text file ;;
     ret (File.mk (name file) (type file) (size file) (Some content) None))
  else
    try_catch
      (content <- read_text file ;;
       ret (File.mk (name file) (type file) (size file) (Some content) None))
      (fun _ => ret (File.mk (name file) (type file) (size file) None None)).

Fixpoint extract_all (files : list RawFile) : M State (list File.t) :=
  match files with
  | [] => ret []
  | file :: rest =>
      d <- extract file ;;
      ds <- extract_all rest ;;
      ret (d :: ds)
  end.

(** [handleFileUpload]; [files = None] is [event.target.files] being
    [null].  The descriptors reach [uploadedFiles] only after the loop. *)
Definition handleFileUpload (files : option (list RawFile)) : M State unit :=
  match files with
  | None => ret tt
  | Some fs =>
      newFiles <- extract_all fs ;;
      modify (fun s => {| uploadedFiles := uploadedFiles s ++ newFiles;
                          objectUrls := objectUrls s |})
  end.

End Upload.

(** ** Workspaces over [localStorage] *)

Module Workspace.

(** The browser: the entries of [localStorage], the room it has (counted
    in code units of keys and values), and the URLs given to
    [window.open].  The store is there: reading the global [localStorage]
    does not raise, writing to it may. *)
Record Browser : Type := {
  storage : gmap string string;
  quota : N;
  opened : list string
}.

Definition usage (m : gmap string string) : N :=
  map_fold (fun k v acc => N.of_nat (String.length k) + N.of_nat (String.length v) + acc)%N
           0%N m.

(** [localStorage.setItem(key, value)]: raises [QuotaExceededError], and
    stores nothing, when the new value does not fit. *)
Definition setItem (key value : string) : M Browser unit :=
  fun b =>
    let m := <[key := value]> (storage b) in
    if decide (usage m <= quota b)%N
    then Return tt {| storage := m; quota := quota b; opened := opened b |}
    else Throw QuotaExceededError b.

(** [localStorage.getItem(key)]: [None] is [null]. *)
Definition getItem (key : string) : M Browser (option string) :=
  fun b => Return (storage b !! key) b.

(** [window.open(url, "_blank")] *)
Definition window_open (url : string) : M Browser unit :=
  modify (fun b => {| storage := storage b; quota := quota b;
                      opened := opened b ++ [url] |}).

(** [`workspace-${Date.now()}`], [now] being what [Date.now()] returns. *)
Definition fresh_id (now : N) : string := "workspace-" +:+ pretty now.

(** The properties of [metadata] that [openIDEWorkspace] reads. *)
Record IDEMetadata : Type := {
  code : option string;
  fileName : option string
}.

Record Opened : Type := {
  workspaceId : string;
  url : string;
  metadata : option IDEMetadata
}.

(** [openIDEWorkspace(metadata)]; the entries are written when
    [metadata?.code] is truthy, and [metadata.code] is then that string. *)
Definition openIDEWorkspace (metadata : option IDEMetadata) (now : N) : M Browser Opened :=
  let workspaceId := fresh_id now in
  (match metadata with
   | Some md =>
       if Js.truthy (code md) then
         setItem (workspaceId +:+ "-code") (Js.or_else (code md) "") ;;;
         setItem (workspaceId +:+ "-fileName") (Js.or_else (fileName md) "app.tsx")
       else ret tt
   | None => ret tt
   end) ;;;
  let vscodeUrl := "https://vscode.dev/?folder=/tmp/" +:+ workspaceId in
  window_open vscodeUrl ;;;
  ret {| workspaceId := workspaceId; url := vscodeUrl; metadata := metadata |}.

(** [saveCodeToWorkspace(code, fileName, workspaceId?)] *)
Definition saveCodeToWorkspace (code fileName : string) (workspaceId : option string)
    (now : N) : M Browser string :=
  let id := Js.or_else workspaceId (fresh_id now) in
  setItem (id +:+ "-code") code ;;;
  setItem (id +:+ "-fileName") fileName ;;;
  ret id.

(** The object [{ code, fileName }] that [loadCodeFromWorkspace] returns. *)
Record Loaded : Type := {
  loaded_code : option string;
  loaded_fileName : option string
}.

Definition loadCodeFromWorkspace (workspaceId : string) : M Browser Loaded :=
  code <- getItem (workspaceId +:+ "-code") ;;
  fileName <- getItem (workspaceId +:+ "-fileName") ;;
  ret {| loaded_code := code; loaded_fileName := fileName |}.

(** A call of one of the two functions that write to the store, with the
    reading of the clock at the call in a run of calls. *)
Inductive Call : Type :=
  | OpenIDE (metadata : option IDEMetadata)
  | SaveCode (code fileName : string) (workspaceId : option string).

Definition perform (c : Call) (now : N) : M Browser string :=
  match c with
  | OpenIDE md => r <- openIDEWorkspace md now ;; ret (workspaceId r)
  | SaveCode code fileName wid => saveCodeToWorkspace code fileName wid now
  end.

(** A run of calls; the result lists the workspace id each call returned. *)
Fixpoint perform_all (calls : list (Call * N)) : M Browser (list string) :=
  match calls with
  | [] => ret []
  | (c, now) :: rest =>
      id <- perform c now ;;
      ids <- perform_all rest ;;
      ret (id :: ids)
  end.

(** The workspace a call works on. *)
Definition target (c : Call) (now : N) : string :=
  match c with
  | OpenIDE _ => fresh_id now
  | SaveCode _ _ wid => Js.or_else wid (fresh_id now)
  end.

(** The calls that allocate a workspace identity: [openIDEWorkspace], and
    [saveCodeToWorkspace] without an id. *)
Definition allocates (c : Call) : bool :=
  match c with
  | OpenIDE _ => true
  | SaveCode _ _ wid => negb (Js.truthy wid)
  end.

End Workspace.

(** ** Deployment (the deploy endpoint and [handleDeploy]) *)

Module Deploy.

(** The body the client posts to [/api/deploy]. *)
Record Request : Type := {
  platform : string;
  code : string;
  fileName : string;
  fileTree : list string
}.

(** The JSON object the endpoint answers with; [None] is an absent
    property. *)
Record Json : Type := {
  success : bool;
  url : option string;
  repoUrl : option string;
  error : option string
}.

(** [deployToVercel]: [now1] and [now2] are its two readings of the clock. *)
Definition deployToVercel (now1 now2 : N) : string * string :=
  ("https://your-app-" +:+ pretty now1 +:+ ".vercel.app",
   "https://github.com/user/your-app-" +:+ pretty now2).

Definition pushToGitHub (now1 : N) : string :=
  "https://github.com/user/your-app-" +:+ pretty now1.

(** The endpoint [POST]; [body = None] is a body [request.json()]
    rejects. *)
Definition POST (body : option Request) (now1 now2 : N) : Json :=
  match body with
  | None => {| success := false; url := None; repoUrl := None;
               error := Some "Deployment failed" |}
  | Some r =>
      if String.eqb (platform r) "vercel" then
        let deploymentResult := deployToVercel now1 now2 in
        {| success := true; url := Some (fst deploymentResult);
           repoUrl := Some (snd deploymentResult); error := None |}
      else if String.eqb (platform r) "github" then
        let repoResult := pushToGitHub now1 in
        {| success := true; url := None; repoUrl := Some repoResult; error := None |}
      else
        {| success := false; url := None; repoUrl := None;
           error := Some "Invalid platform" |}
  end.

(** The client. *)
Inductive Platform : Type := vercel | github.

Definition platform_name (p : Platform) : string :=
  match p with vercel => "vercel" | github => "github" end.

Inductive Status : Type := idle | deploying | succeeded | failed.
(* "idle" | "deploying" | "success" | "error" *)

(** What [fetch] and [response.json()] give: [fetch] rejects, the body is
    not JSON, the body is [null], or the body is an object. *)
Inductive FetchResult : Type :=
  | Rejected
  | NotJson
  | JsonNull
  | JsonObject (data : Json).

(** [deployMessage]: the values its template interpolates. *)
Record Message : Type := {
  id : string;
  to : string;
  deploymentUrl : string;
  repository : string
}.

(** The state of the component that [handleDeploy] touches.  [statusLog]
    records every value given to [setDeploymentStatus], oldest first;
    [timers] holds the pending [setTimeout] callbacks with their delays,
    a callback being the status it sets. *)
Record IDE : Type := {
  deploymentStatus : Status;
  statusLog : list Status;
  messages : list Message;
  timers : list (nat * Status);
  codeContent : string;
  currentFile : string;
  tree : list string
}.

Definition setDeploymentStatus (st : Status) : M IDE unit :=
  modify (fun s =>
    {| deploymentStatus := st; statusLog := statusLog s ++ [st];
       messages := messages s; timers := timers s;
       codeContent := codeContent s; currentFile := currentFile s; tree := tree s |}).

Definition setMessages (f : list Message -> list Message) : M IDE unit :=
  modify (fun s =>
    {| deploymentStatus := deploymentStatus s; statusLog := statusLog s;
       messages := f (messages s); timers := timers s;
       codeContent := codeContent s; currentFile := currentFile s; tree := tree s |}).

Definition setTimeout (callback : Status) (delay : nat) : M IDE unit :=
  modify (fun s =>
    {| deploymentStatus := deploymentStatus s; statusLog := statusLog s;
       messages := messages s; timers := timers s ++ [(delay, callback)];
       codeContent := codeContent s; currentFile := currentFile s; tree := tree s |}).

(** [`${x}`] of a property that may be absent. *)
Definition interpolate (o : option string) : string :=
  match o with Some s => s | None => "undefined" end.

Section Client.
(** The transport and the endpoint behind it. *)
Variable fetch : Request -> FetchResult.

(** [await fetch(...)] followed by [await response.json()] *)
Definition fetch_json (r : Request) : M IDE (option Json) :=
  match fetch r with
  | Rejected => throw NetworkError
  | NotJson => throw SyntaxError
  | JsonNull => ret None
  | JsonObject d => ret (Some d)
  end.

(** [handleDeploy(platform)]; [now] is the clock reading behind the id of
    the message. *)
Definition handleDeploy (p : Platform) (now : N) : M IDE unit :=
  setDeploymentStatus deploying ;;;
  try_catch
    (s <- get ;;
     data <- fetch_json {| platform := platform_name p; code := codeContent s;
                           fileName := currentFile s; fileTree := tree s |} ;;
     match data with
     | None => throw TypeError
     | Some d =>
         if success d then
           setDeploymentStatus succeeded ;;;
           setMessages (fun prev : list Message => (prev ++
             [{| id := pretty now; to := platform_name p;
                 deploymentUrl := interpolate (url d);
                 repository := interpolate (repoUrl d) |}])%list)
         else setDeploymentStatus failed
     end)
    (fun _ => setDeploymentStatus failed) ;;;
  setTimeout idle 3000.
End Client.


(** A transport that reaches the endpoint of this repository. *)
Definition endpoint (now1 now2 : N) (r : Request) : FetchResult :=
  JsonObject (POST (Some r) now1 now2).

(** The body of a reply that reports success, if the transport gave one. *)
Definition reported_success (r : FetchResult) : option Json :=
  match r with
  | JsonObject d => if success d then Some d else None
  | Rejected | NotJson | JsonNull => None
  end.

(** The request [handleDeploy] posts from the state [s]. *)
Definition request_of (p : Platform) (s : IDE) : Request :=
  {| platform := platform_name p; code := codeContent s;
     fileName := currentFile s; fileTree := tree s |}.




(** A component that has just been mounted. *)
Definition mounted (code file : string) (tr : list string) : IDE :=
  {| deploymentStatus := idle; statusLog := []; messages := []; timers := [];
     codeContent := code; currentFile := file; tree := tr |}.

End Deploy.

(** ** The chat form of the IDE component ([removeFile], [handleSubmit],
    [handleKeyDown]) *)

Module Ide.

(** [xs.filter((_, i) => keep(i))], the callback seeing the index only. *)
Fixpoint filter_index {A : Type} (keep : nat -> bool) (i : nat) (xs : list A) : list A :=
  match xs with
  | [] => []
  | x :: rest =>
      if keep i then x :: filter_index keep (S i) rest
      else filter_index keep (S i) rest
  end.

(** [removeFile(index)], on the state [handleFileUpload] works on. *)
Definition removeFile (index : nat) : M Upload.State unit :=
  modify (fun s =>
    {| Upload.uploadedFiles :=
         filter_index (fun i => negb (Nat.eqb i index)) 0 (Upload.uploadedFiles s);
       Upload.objectUrls := Upload.objectUrls s |}).

(** [s.trimStart()], [s.trimEnd()] and [s.trim()]: the white space and line
    terminators they strip are the code units of the class [\s]. *)
Fixpoint trimStart (s : string) : string :=
  match s with
  | EmptyString => EmptyString
  | String c rest => if Js.is_space c then trimStart rest else s
  end.

Fixpoint trimEnd (s : string) : string :=
  match s with
  | EmptyString => EmptyString
  | String c rest =>
      let rest' := trimEnd rest in
      if Js.is_space c && String.eqb rest' "" then EmptyString else String c rest'
  end.

Definition trim (s : string) : string := trimEnd (trimStart s).

(** The state of the component that [handleSubmit] reads and writes. *)
Record State : Type := {
  messages : list Chat.Message.t;
  input : string;
  isLoading : bool;
  selectedModel : string;
  activeTab : string;
  codeContent : string;
  fileName : string;
  uploadedFiles : list File.t
}.

(** The parsed body of the answer of [/api/process-request], as far as
    [handleSubmit] reads it: [data.response], [data.metadata],
    [data.metadata.code] and [data.metadata.fileName]. *)
Record Data : Type := {
  response : option string;
  metadata : option Chat.Metadata;
  code : option string;
  codeFileName : option string
}.

(** What [fetch] and [response.json()] give: [fetch] rejects, the body is
    not JSON, the body is [null], or the body is an object. *)
Inductive Fetched : Type :=
  | Rejected
  | NotJson
  | JsonNull
  | JsonData (data : Data).

Definition setMessages (f : list Chat.Message.t -> list Chat.Message.t) : M State unit :=
  modify (fun s =>
    {| messages := f (messages s); input := input s; isLoading := isLoading s;
       selectedModel := selectedModel s; activeTab := activeTab s;
       codeContent := codeContent s; fileName := fileName s;
       uploadedFiles := uploadedFiles s |}).

Definition setInput (v : string) : M State unit :=
  modify (fun s =>
    {| messages := messages s; input := v; isLoading := isLoading s;
       selectedModel := selectedModel s; activeTab := activeTab s;
       codeContent := codeContent s; fileName := fileName s;
       uploadedFiles := uploadedFiles s |}).

Definition setUploadedFiles (v : list File.t) : M State unit :=
  modify (fun s =>
    {| messages := messages s; input := input s; isLoading := isLoading s;
       selectedModel := selectedModel s; activeTab := activeTab s;
       codeContent := codeContent s; fileName := fileName s;
       uploadedFiles := v |}).

Definition setIsLoading (v : bool) : M State unit :=
  modify (fun s =>
    {| messages := messages s; input := input s; isLoading := v;
       selectedModel := selectedModel s; activeTab := activeTab s;
       codeContent := codeContent s; fileName := fileName s;
       uploadedFiles := uploadedFiles s |}).

(** [setCodeContent(code); setFileName(name); setActiveTab("editor")] *)
Definition openInEditor (code name : string) : M State unit :=
  modify (fun s =>
    {| messages := messages s; input := input s; isLoading := isLoading s;
       selectedModel := selectedModel s; activeTab := "editor";
       codeContent := code; fileName := name;
       uploadedFiles := uploadedFiles s |}).

Section Form.
(** The transport and the endpoint behind it. *)
Variable fetch : Chat.Request -> Fetched.

(** [await fetch(...)] followed by [await response.json()] *)
Definition fetch_json (r : Chat.Request) : M State (option Data) :=
  match fetch r with
  | Rejected => throw NetworkError
  | NotJson => throw SyntaxError
  | JsonNull => ret None
  | JsonData d => ret (Some d)
  end.

(** [handleSubmit(e)].  [t1] and [t3] are the readings of [Date.now()]
    behind the ids of the two messages, [t2] and [t4] the times of their
    [new Date()].  The values [input], [uploadedFiles], [isLoading],
    [selectedModel] and [messages] the function reads are those of the
    state it is called in. *)
Definition handleSubmit (t1 t2 t3 t4 : N) : M State unit :=
  s <- get ;;
  if (negb (Js.truthy (Some (trim (input s)))) && Nat.eqb (length (uploadedFiles s)) 0)
     || isLoading s
  then ret tt
  else
    let userMessage :=
      Chat.Message.mk (pretty t1) Chat.user
        (Js.or_else (Some (trim (input s))) "Uploaded files for analysis") t2 None
        (if Nat.ltb 0 (length (uploadedFiles s)) then Some (uploadedFiles s) else None) in
    setMessages (fun prev => (prev ++ [userMessage])%list) ;;;
    setInput "" ;;;
    setUploadedFiles [] ;;;
    setIsLoading true ;;;
    try_catch
      (data <- fetch_json
                 {| Chat.message := Some (Chat.Message.content userMessage);
                    Chat.model := Some (selectedModel s);
                    Chat.history := messages s;
                    Chat.files := Chat.Message.files userMessage |} ;;
       match data with
       | None => throw TypeError
       | Some d =>
           setMessages (fun prev => (prev ++
             [Chat.Message.mk (pretty (t3 + 1)%N) Chat.assistant
                (Js.or_else (response d)
                   "I apologize, but I encountered an error processing your request. Please try again.")
                t4 (metadata d) None])%list) ;;;
           if Js.truthy (code d)
           then openInEditor (Js.or_else (code d) "") (Js.or_else (codeFileName d) "app.tsx")
           else ret tt
       end)
      (fun _ =>
         setMessages (fun prev => (prev ++
           [Chat.Message.mk (pretty (t3 + 1)%N) Chat.assistant
              "I encountered an error processing your request. Please try again."
              t4 None None])%list)) ;;;
    setIsLoading false.

(** [handleKeyDown(e)]: [key] is [e.key], [shift] is [e.shiftKey]. *)
Definition handleKeyDown (key : string) (shift : bool) (t1 t2 t3 t4 : N) : M State unit :=
  if String.eqb key "Enter" && negb shift then handleSubmit t1 t2 t3 t4 else ret tt.
End Form.

(** A transport that reaches the chat endpoint of this repository.
    [text_of] gives the text of each template, which [Chat.Narrative] leaves
    out; the metadata object the endpoint builds has no property [code] and
    none called [fileName]; the body of the error answer is [{ error }]. *)
Definition endpoint (cfg : Chat.Registry) (text_of : Chat.Narrative -> string)
    (r : Chat.Request) : Fetched :=
  match Chat.POST cfg (Some r) with
  | Chat.Json200 reply =>
      JsonData {| response := Some (text_of (Chat.response reply));
                  metadata := Some (Chat.metadata reply);
                  code := None; codeFileName := None |}
  | Chat.Json500 _ =>
      JsonData {| response := None; metadata := None; code := None; codeFileName := None |}
  end.

End Ide.

(** The files [handleFileUpload] reads outside any [try]: those that are not
    images and are zip archives by type or by name. *)
Definition unguarded_read (file : Upload.RawFile) : bool :=
  negb (Js.startsWith "image/" (Upload.type file))
  && (String.eqb (Upload.type file) "application/zip"
      || Js.endsWith ".zip" (Upload.name file)).

(** ** Workspaces made of several files ([createWorkspaceFromFiles]) *)

Module WorkspaceFiles.

(** An element of [files]: [{ name, content }]. *)
Record Source : Type := {
  name : string;
  content : string
}.

Section FromFiles.
(** [JSON.stringify(file)], of which only the injection into the store is
    used. *)
Variable stringify : Source -> string.

(** [files.forEach((file, index) => localStorage.setItem(...))], from the
    index [index] on. *)
Fixpoint write_files (workspaceId : string) (index : nat) (files : list Source)
    : M Workspace.Browser unit :=
  match files with
  | [] => ret tt
  | file :: rest =>
      Workspace.setItem (workspaceId +:+ "-file-" +:+ pretty index) (stringify file) ;;;
      write_files workspaceId (S index) rest
  end.

Definition createWorkspaceFromFiles (files : list Source) (now : N)
    : M Workspace.Browser string :=
  let workspaceId := Workspace.fresh_id now in
  write_files workspaceId 0 files ;;;
  Workspace.setItem (workspaceId +:+ "-fileCount") (pretty (length files)) ;;;
  ret workspaceId.
End FromFiles.

End WorkspaceFiles.

(** ** The specification's wording of URL extraction

    "The first substring of the message matching [https?://\S+]", written
    out: [u] has the shape of the pattern, it occurs in the message, no
    substring of that shape starts further left, and none that starts at the
    same place is longer; or there is no such substring and [u] is empty. *)

Module UrlSpec.

Fixpoint all_chars (p : ascii -> bool) (s : string) : bool :=
  match s with
  | EmptyString => true
  | String c s' => p c && all_chars p s'
  end.

Definition non_space (c : ascii) : bool := negb (Js.is_space c).

Definition url_shaped (u : string) : Prop :=
  exists rest, (u = "http://" +:+ rest \/ u = "https://" +:+ rest)
               /\ rest <> "" /\ all_chars non_space rest = true.

Definition occurs_at (n : nat) (u m : string) : Prop :=
  exists pre post, m = pre +:+ u +:+ post /\ String.length pre = n.

Definition first_url_match (m u : string) : Prop :=
  (u = "" /\ forall n u', url_shaped u' -> ~ occurs_at n u' m)
  \/ (url_shaped u /\ exists n, occurs_at n u m /\
       forall n' u', url_shaped u' -> occurs_at n' u' m ->
         n <= n' /\ (n' = n -> String.length u' <= String.length u)).

End UrlSpec.

(** The names of the properties an object literal inherits from
    [Object.prototype]: a property read [MODEL_CONFIGS[key]] with one of
    these keys answers that inherited property, whatever entries the
    registry has. *)
Definition object_prototype_keys : list string :=
  [ "constructor"; "__defineGetter__"; "__defineSetter__"; "hasOwnProperty";
    "__lookupGetter__"; "__lookupSetter__"; "isPrototypeOf";
    "propertyIsEnumerable"; "toString"; "valueOf"; "__proto__"; "toLocaleString" ].

(** ** Sample inputs *)

(** A registry with two entries, [venice] being the default one. *)
Definition sample_registry : Chat.Registry :=
  {| Chat.lookup := fun k =>
       if String.eqb k "venice" then Some (ModelConfig.mk "Venice AI" "Venice")
       else if String.eqb k "gpt-4" then Some (ModelConfig.mk "GPT-4" "OpenAI")
       else None;
     Chat.venice := ModelConfig.mk "Venice AI" "Venice" |}.

Definition sample_history : list Chat.Message.t :=
  [ Chat.Message.mk "1" Chat.assistant "Welcome to your Custom IDE!" 1700000000000%N
      None None;
    Chat.Message.mk "1700000001000" Chat.user "fix my build" 1700000001000%N
      None None ].

(** A browser whose storage is empty and has room, and one whose storage has
    no room left at all. *)
Definition roomy_browser : Workspace.Browser :=
  {| Workspace.storage := ∅; Workspace.quota := 5000000%N; Workspace.opened := [] |}.

Definition full_browser : Workspace.Browser :=
  {| Workspace.storage := ∅; Workspace.quota := 0%N; Workspace.opened := [] |}.

(** Two uploads: a text file that can be read and a zip archive whose
    [text()] promise rejects. *)
Definition readable_notes : Upload.RawFile :=
  {| Upload.name := "notes.txt"; Upload.type := "text/plain"; Upload.size := 5%N;
     Upload.text := Some "hello" |}.

Definition unreadable_zip : Upload.RawFile :=
  {| Upload.name := "project.zip"; Upload.type := "application/zip";
     Upload.size := 2048%N; Upload.text := None |}.

Definition unreadable_notes : Upload.RawFile :=
  {| Upload.name := "notes.txt"; Upload.type := "text/plain"; Upload.size := 5%N;
     Upload.text := None |}.

Definition no_uploads : Upload.State :=
  {| Upload.uploadedFiles := []; Upload.objectUrls := 0 |}.



Definition editing : Deploy.IDE :=
  Deploy.mounted "export default function App() { return null }" "app.tsx" ["src"].


(** An image, which [handleFileUpload] does not read. *)
Definition logo_png : Upload.RawFile :=
  {| Upload.name := "logo.png"; Upload.type := "image/png"; Upload.size := 20%N;
     Upload.text := None |}.

(** The opening words of each reply template, for a transport that reaches
    the chat endpoint. *)
Definition opening_words (n : Chat.Narrative) : string :=
  match n with
  | Chat.ImageText names => "Analyzing uploaded images... " +:+ names
  | Chat.ZipText names => "Processing uploaded ZIP file... " +:+ names
  | Chat.FigmaText => "Processing Figma design..."
  | Chat.FilesText names => "Processing uploaded files... " +:+ names
  | Chat.GithubText => "Cloning GitHub repository..."
  | Chat.WebsiteText => "Cloning website..."
  | Chat.BuildText app => "Building an app like " +:+ app
  | Chat.DebugText => "Analyzing code for debugging..."
  | Chat.HelpText => "I can help you with that!"
  end.

(** The chat form with a message typed in, and the same form left blank. *)
Definition typing : Ide.State :=
  {| Ide.messages := [Chat.Message.mk "1" Chat.assistant "Welcome to your Custom IDE!"
                        1700000000000%N None None];
     Ide.input := "  fix the login page ";
     Ide.isLoading := false; Ide.selectedModel := "venice"; Ide.activeTab := "chat";
     Ide.codeContent := "// Welcome to your custom IDE";
     Ide.fileName := "app.tsx"; Ide.uploadedFiles := [] |}.

Definition blank_form : Ide.State :=
  {| Ide.messages := []; Ide.input := "   "; Ide.isLoading := false;
     Ide.selectedModel := "venice"; Ide.activeTab := "chat";
     Ide.codeContent := "// Welcome to your custom IDE";
     Ide.fileName := "app.tsx"; Ide.uploadedFiles := [] |}.

Definition no_network (r : Chat.Request) : Ide.Fetched := Ide.Rejected.

(** A rendering of [{ name, content }] for the sample runs. *)
Definition sample_stringify (file : WorkspaceFiles.Source) : string :=
  WorkspaceFiles.name file +:+ ":" +:+ WorkspaceFiles.content file.

(** A store with room for sixty code units. *)
Definition small_browser : Workspace.Browser :=
  {| Workspace.storage := ∅; Workspace.quota := 60%N; Workspace.opened := [] |}.

(** A component in the middle of a deployment. *)
Definition mid_deploy : Deploy.IDE :=
  {| Deploy.deploymentStatus := Deploy.deploying; Deploy.statusLog := [];
     Deploy.messages := []; Deploy.timers := [];
     Deploy.codeContent := "export default function App() { return null }";
     Deploy.currentFile := "app.tsx"; Deploy.tree := ["src"] |}.

(** * Properties *)

(** ** The chat endpoint *)

Section ChatProperties.
Variable cfg : Chat.Registry.

Lemma category_of_on_files (fs : list File.t) :
  exists c, Chat.category_of (Chat.type (snd (Chat.on_files fs))) = Some c
            /\ c <> Chat.none.
Proof.
  unfold Chat.on_files.
  repeat match goal with
         | |- context [if ?b then _ else _] => destruct b
         end; simpl; eexists; (split; [reflexivity | discriminate]).
Qed.

Lemma category_of_on_message (m : string) :
  exists c, Chat.category_of (Chat.type (snd (Chat.on_message m))) = Some c.
Proof.
  unfold Chat.on_message.
  repeat match goal with
         | |- context [if ?b then _ else _] => destruct b
         end; simpl; eexists; reflexivity.
Qed.

Lemma POST_type (r : Chat.Request) (text : Chat.Narrative) (meta : Chat.Metadata) :
  Chat.respond r = inr (text, meta) ->
  exists reply, Chat.POST cfg (Some r) = Chat.Json200 reply
                /\ Chat.response reply = text
                /\ Chat.type (Chat.metadata reply) = Chat.type meta
                /\ Chat.url (Chat.metadata reply) = Chat.url meta
                /\ Chat.openIDE (Chat.metadata reply) = Chat.openIDE meta.
Proof.
  intros H. unfold Chat.POST. rewrite H. eexists. repeat split.
Qed.
End ChatProperties.

(** C2. For every message string and every list of file descriptors, sent or
    left out of the body, the endpoint answers with a reply (never with the
    error response), and the [type] of its metadata is the value of exactly
    one category of the closed set. *)
Theorem C2_classification_total
    (cfg : Chat.Registry) (message : string) (model : option string)
    (history : list Chat.Message.t) (files : option (list File.t)) :
  exists reply,
    Chat.POST cfg (Some {| Chat.message := Some message; Chat.model := model;
                           Chat.history := history; Chat.files := files |})
    = Chat.Json200 reply
    /\ exists c, Chat.category_of (Chat.type (Chat.metadata reply)) = Some c
                 /\ forall c', Chat.category_of (Chat.type (Chat.metadata reply)) = Some c'
                               -> c' = c.
Proof.
  set (r := {| Chat.message := Some message; Chat.model := model;
               Chat.history := history; Chat.files := files |}).
  assert (Hr : exists text meta, Chat.respond r = inr (text, meta)
                /\ exists c, Chat.category_of (Chat.type meta) = Some c).
  { unfold Chat.respond; simpl.
    destruct files as [[|f fs]|].
    - destruct (Chat.on_message message) as [t m] eqn:E.
      exists t, m. split; [reflexivity|].
      destruct (category_of_on_message message) as [c Hc].
      rewrite E in Hc. eauto.
    - destruct (Chat.on_files (f :: fs)) as [t m] eqn:E.
      exists t, m. split; [reflexivity|].
      destruct (category_of_on_files (f :: fs)) as [c [Hc _]].
      rewrite E in Hc. eauto.
    - destruct (Chat.on_message message) as [t m] eqn:E.
      exists t, m. split; [reflexivity|].
      destruct (category_of_on_message message) as [c Hc].
      rewrite E in Hc. eauto. }
  destruct Hr as (text & meta & Hresp & c & Hc).
  destruct (POST_type cfg r text meta Hresp) as (reply & HP & _ & Ht & _).
  exists reply. split; [exact HP|].
  exists c. rewrite Ht. split; [exact Hc|].
  intros c' Hc'. congruence.
Qed.

(** C10. Two requests with the same message, model and files get the same
    answer from the endpoint, whatever their histories: the same text, the
    same metadata and the same model, or the same error. *)
Theorem C10_history_has_no_influence (cfg : Chat.Registry) (r1 r2 : Chat.Request) :
  Chat.message r1 = Chat.message r2 ->
  Chat.model r1 = Chat.model r2 ->
  Chat.files r1 = Chat.files r2 ->
  Chat.POST cfg (Some r1) = Chat.POST cfg (Some r2).
Proof.
  intros Hm Hmod Hf.
  unfold Chat.POST, Chat.respond.
  rewrite Hm, Hmod, Hf. reflexivity.
Qed.

Lemma C10_history_has_no_influence_witness :
  Chat.POST sample_registry
    (Some {| Chat.message := Some "build an app like Notion"; Chat.model := Some "gpt-4";
             Chat.history := []; Chat.files := None |})
  = Chat.POST sample_registry
    (Some {| Chat.message := Some "build an app like Notion"; Chat.model := Some "gpt-4";
             Chat.history := sample_history; Chat.files := None |}).
Proof.
  apply (C10_history_has_no_influence sample_registry); reflexivity.
Defined.

(** ** Facts about strings *)

#[local] Arguments String.append : simpl nomatch.
Local Open Scope list_scope.

Section StringFacts.

Lemma string_app_assoc (a b c : string) : (a +:+ b) +:+ c = a +:+ (b +:+ c).
Proof. induction a as [|x a IH]; simpl; [reflexivity | now f_equal]. Qed.

Lemma string_length_app (a b : string) :
  String.length (a +:+ b) = String.length a + String.length b.
Proof. induction a as [|x a IH]; simpl; [reflexivity | now f_equal]. Qed.

(** Two splittings of one string at the same place are the same splitting. *)
Lemma string_app_inj_length (a b a' b' : string) :
  a +:+ b = a' +:+ b' -> String.length a = String.length a' -> a = a' /\ b = b'.
Proof.
  revert a'. induction a as [|x a IH]; intros [|x' a'] H L; simpl in *;
    try discriminate.
  - split; [reflexivity | exact H].
  - injection H as -> H. injection L as L.
    destruct (IH a' H L) as [-> ->]. split; reflexivity.
Qed.

Lemma string_app_inv_tail (a a' t : string) : a +:+ t = a' +:+ t -> a = a'.
Proof.
  intros H. apply (string_app_inj_length a t a' t H).
  apply (f_equal String.length) in H. rewrite !string_length_app in H. lia.
Qed.

Lemma startsWith_app (p t : string) : Js.startsWith p (p +:+ t) = true.
Proof.
  induction p as [|c p IH]; simpl; [reflexivity|].
  now rewrite Ascii.eqb_refl.
Qed.

Lemma startsWith_inv (p s : string) :
  Js.startsWith p s = true -> s = p +:+ Js.drop (String.length p) s.
Proof.
  revert s. induction p as [|c p IH]; intros s H; simpl in *.
  - reflexivity.
  - destruct s as [|d s]; [discriminate|].
    destruct (Ascii.eqb c d) eqn:E; [|discriminate].
    apply Ascii.eqb_eq in E. subst d. simpl. f_equal. apply IH, H.
Qed.

Lemma drop_app (p t : string) : Js.drop (String.length p) (p +:+ t) = t.
Proof. induction p as [|c p IH]; simpl; [reflexivity | exact IH]. Qed.

Lemma take_while_all (p : ascii -> bool) (s : string) :
  UrlSpec.all_chars p (Js.take_while p s) = true.
Proof.
  induction s as [|c s IH]; simpl; [reflexivity|].
  destruct (p c) eqn:E; simpl; [now rewrite E | reflexivity].
Qed.

Lemma take_while_prefix (p : ascii -> bool) (s : string) :
  exists t, s = Js.take_while p s +:+ t.
Proof.
  induction s as [|c s [t IH]]; simpl.
  - exists "". reflexivity.
  - destruct (p c); simpl.
    + exists t. now rewrite <- IH.
    + exists (String c s). reflexivity.
Qed.

Lemma take_while_app (p : ascii -> bool) (r t : string) :
  UrlSpec.all_chars p r = true ->
  Js.take_while p (r +:+ t) = r +:+ Js.take_while p t.
Proof.
  induction r as [|c r IH]; simpl; intros H; [reflexivity|].
  apply andb_true_iff in H as [Hc Hr]. rewrite Hc. now rewrite IH.
Qed.

End StringFacts.

(** ** [extractUrl] returns the first match of the pattern *)

Section UrlExtraction.

Import UrlSpec.

Lemma first_url_eq (s : string) :
  Chat.first_url s =
  match Chat.url_at s with
  | Some u => Some u
  | None => match s with
            | EmptyString => None
            | String _ s' => Chat.first_url s'
            end
  end.
Proof. destruct s; reflexivity. Qed.

Lemma eqb_empty_false (s : string) : s <> "" -> String.eqb s "" = false.
Proof. intros H. now apply String.eqb_neq. Qed.

Lemma url_at_sound (s u : string) :
  Chat.url_at s = Some u -> url_shaped u /\ exists post, s = u +:+ post.
Proof.
  unfold Chat.url_at.
  destruct (Js.startsWith "https://" s) eqn:Hs.
  - set (rest := Js.take_while _ _).
    destruct (String.eqb rest "") eqn:Hr; [discriminate|].
    intros [= <-]. apply String.eqb_neq in Hr. split.
    + exists rest. split; [now right|]. split; [exact Hr|].
      apply take_while_all.
    + destruct (take_while_prefix (fun c => negb (Js.is_space c)) (Js.drop 8 s))
        as [t Ht].
      exists t. change (s = ("https://" +:+ rest) +:+ t).
      rewrite string_app_assoc. fold rest in Ht. rewrite <- Ht.
      apply (startsWith_inv "https://" s Hs).
  - destruct (Js.startsWith "http://" s) eqn:Hp; [|discriminate].
    set (rest := Js.take_while _ _).
    destruct (String.eqb rest "") eqn:Hr; [discriminate|].
    intros [= <-]. apply String.eqb_neq in Hr. split.
    + exists rest. split; [now left|]. split; [exact Hr|].
      apply take_while_all.
    + destruct (take_while_prefix (fun c => negb (Js.is_space c)) (Js.drop 7 s))
        as [t Ht].
      exists t. change (s = ("http://" +:+ rest) +:+ t).
      rewrite string_app_assoc. fold rest in Ht. rewrite <- Ht.
      apply (startsWith_inv "http://" s Hp).
Qed.

Lemma app_not_empty (a b : string) : a <> "" -> a +:+ b <> "".
Proof. destruct a; [congruence | discriminate]. Qed.

(** Whatever of the pattern's shape stands at the head of [s], [url_at]
    finds a match there that is at least as long. *)
Lemma url_at_complete (s u' post : string) :
  url_shaped u' -> s = u' +:+ post ->
  exists u, Chat.url_at s = Some u /\ String.length u' <= String.length u.
Proof.
  intros (rest & Hu & Hne & Hall) ->.
  unfold non_space in Hall. unfold Chat.url_at.
  destruct Hu as [-> | ->]; rewrite string_app_assoc.
  - replace (Js.startsWith "https://" ("http://" +:+ rest +:+ post)) with false
      by reflexivity.
    rewrite (startsWith_app "http://").
    change 7 with (String.length "http://"). rewrite drop_app.
    rewrite (take_while_app _ rest post Hall).
    rewrite (eqb_empty_false _ (app_not_empty _ _ Hne)).
    eexists. split; [reflexivity|].
    rewrite !string_length_app. lia.
  - rewrite (startsWith_app "https://").
    change 8 with (String.length "https://"). rewrite drop_app.
    rewrite (take_while_app _ rest post Hall).
    rewrite (eqb_empty_false _ (app_not_empty _ _ Hne)).
    eexists. split; [reflexivity|].
    rewrite !string_length_app. lia.
Qed.

Lemma first_url_none (m : string) :
  Chat.first_url m = None ->
  forall n u', url_shaped u' -> ~ occurs_at n u' m.
Proof.
  induction m as [|c m IH]; intros H n u' Hu (pre & post & Hm & Hn);
    rewrite first_url_eq in H.
  - destruct pre; [|discriminate].
    destruct (url_at_complete "" u' post Hu Hm) as (u & Hat & _).
    rewrite Hat in H. discriminate.
  - destruct (Chat.url_at (String c m)) eqn:Hat; [discriminate|].
    destruct pre as [|d pre].
    + destruct (url_at_complete _ u' post Hu Hm) as (u & Hat' & _). congruence.
    + simpl in Hm. injection Hm as -> ->.
      apply (IH H (String.length pre) u' Hu).
      exists pre, post. split; reflexivity.
Qed.

Lemma first_url_some (m u : string) :
  Chat.first_url m = Some u ->
  url_shaped u /\ exists n, occurs_at n u m /\
    forall n' u', url_shaped u' -> occurs_at n' u' m ->
      n <= n' /\ (n' = n -> String.length u' <= String.length u).
Proof.
  revert u. induction m as [|c m IH]; intros u H; rewrite first_url_eq in H.
  - discriminate.
  - destruct (Chat.url_at (String c m)) as [u0|] eqn:Hat.
    + injection H as ->.
      destruct (url_at_sound _ _ Hat) as [Hshape [post Hpost]].
      split; [exact Hshape|]. exists 0. split.
      * exists "", post. split; [exact Hpost | reflexivity].
      * intros n' u' Hu' (pre' & post' & Hm' & Hn'). split; [lia|].
        intros ->. destruct pre'; [|discriminate].
        destruct (url_at_complete _ u' post' Hu' Hm') as (u1 & Hat1 & Hlen).
        congruence.
    + destruct (IH u H) as (Hshape & n & (pre & post & Hm & Hn) & Hmin).
      split; [exact Hshape|]. exists (S n). split.
      * exists (String c pre), post. simpl. split; [now rewrite Hm | now rewrite Hn].
      * intros n' u' Hu' (pre' & post' & Hm' & Hn').
        destruct pre' as [|d pre'].
        { destruct (url_at_complete _ u' post' Hu' Hm') as (u1 & Hat1 & _).
          congruence. }
        simpl in Hm', Hn'. injection Hm' as -> Hm'.
        destruct (Hmin (String.length pre') u' Hu') as [Hle Hlen].
        { exists pre', post'. split; [exact Hm' | reflexivity]. }
        split; [lia|]. intros E. apply Hlen. lia.
Qed.

Lemma extractUrl_first_match (m : string) :
  first_url_match m (Chat.extractUrl m).
Proof.
  unfold Chat.extractUrl, first_url_match.
  destruct (Chat.first_url m) as [u|] eqn:H.
  - right. apply first_url_some, H.
  - left. split; [reflexivity|]. apply first_url_none, H.
Qed.

End UrlExtraction.

(** C3 (amended). For every message sent without files whose lower-cased text
    contains "clone" and whose text as written contains "http" or "github",
    the endpoint takes the clone branch: the category is github-clone when
    the text as written contains "github.com" and website-clone otherwise,
    [url] is the first substring of the message matching [https?://\S+] (the
    empty string when there is none), and [openWorkspace] is true. *)
Theorem C3_clone_branch
    (cfg : Chat.Registry) (m : string) (model : option string)
    (history : list Chat.Message.t) (files : option (list File.t)) :
  files = None \/ files = Some [] ->
  Js.includes "clone" (Js.toLowerCase m) = true ->
  Js.includes "http" m || Js.includes "github" m = true ->
  exists reply,
    Chat.POST cfg (Some {| Chat.message := Some m; Chat.model := model;
                           Chat.history := history; Chat.files := files |})
    = Chat.Json200 reply
    /\ Chat.category_of (Chat.type (Chat.metadata reply))
       = Some (if Js.includes "github.com" m
               then Chat.github_clone else Chat.website_clone)
    /\ Chat.url (Chat.metadata reply) = Some (Chat.extractUrl m)
    /\ UrlSpec.first_url_match m (Chat.extractUrl m)
    /\ Chat.openWorkspace (Chat.metadata reply) = true.
Proof.
  intros Hfiles Hclone Hurl.
  set (r := {| Chat.message := Some m; Chat.model := model;
               Chat.history := history; Chat.files := files |}).
  assert (Hresp : Chat.respond r = inr (Chat.on_message m)).
  { unfold Chat.respond; simpl. destruct Hfiles as [-> | ->]; reflexivity. }
  assert (Hm : Chat.on_message m =
    if Js.includes "github.com" m
    then (Chat.GithubText,
          {| Chat.openIDE := Some true; Chat.type := Some "github";
             Chat.attached := None; Chat.url := Some (Chat.extractUrl m);
             Chat.appName := None; Chat.modelUsed := None; Chat.provider := None |})
    else (Chat.WebsiteText,
          {| Chat.openIDE := Some true; Chat.type := Some "website";
             Chat.attached := None; Chat.url := Some (Chat.extractUrl m);
             Chat.appName := None; Chat.modelUsed := None; Chat.provider := None |})).
  { unfold Chat.on_message. rewrite Hclone, Hurl. reflexivity. }
  destruct (Chat.on_message m) as [text meta] eqn:E.
  destruct (POST_type cfg r text meta Hresp) as (reply & HP & _ & Ht & Hu & Ho).
  exists reply. split; [exact HP|].
  unfold Chat.openWorkspace. rewrite Ht, Hu, Ho.
  destruct (Js.includes "github.com" m); injection Hm as -> ->; simpl;
    (repeat split; try reflexivity; apply extractUrl_first_match).
Qed.

Lemma C3_clone_branch_witness :
  exists reply,
    Chat.POST sample_registry
      (Some {| Chat.message := Some "clone https://github.com/acme/widgets";
               Chat.model := None; Chat.history := []; Chat.files := None |})
    = Chat.Json200 reply
    /\ Chat.category_of (Chat.type (Chat.metadata reply)) = Some Chat.github_clone
    /\ Chat.url (Chat.metadata reply) = Some "https://github.com/acme/widgets"
    /\ UrlSpec.first_url_match "clone https://github.com/acme/widgets"
         "https://github.com/acme/widgets"
    /\ Chat.openWorkspace (Chat.metadata reply) = true.
Proof.
  exact (C3_clone_branch sample_registry "clone https://github.com/acme/widgets"
           None [] None (or_introl eq_refl) eq_refl eq_refl).
Defined.

(** C3 as stated fails.  The lower-cased text of the first message contains
    "clone", "http" and "github.com", and the category is website-clone, not
    github-clone; the lower-cased text of the second contains "clone" and
    "http", and the clone branch is not taken at all. *)
Lemma C3_counterexample :
  (Js.includes "clone" (Js.toLowerCase "clone https://GitHub.com/acme/widgets") = true
   /\ Js.includes "http" (Js.toLowerCase "clone https://GitHub.com/acme/widgets") = true
   /\ Js.includes "github.com" (Js.toLowerCase "clone https://GitHub.com/acme/widgets") = true
   /\ exists reply,
        Chat.POST sample_registry
          (Some {| Chat.message := Some "clone https://GitHub.com/acme/widgets";
                   Chat.model := None; Chat.history := []; Chat.files := None |})
        = Chat.Json200 reply
        /\ Chat.category_of (Chat.type (Chat.metadata reply)) = Some Chat.website_clone
        /\ Chat.category_of (Chat.type (Chat.metadata reply)) <> Some Chat.github_clone)
  /\ (Js.includes "clone" (Js.toLowerCase "CLONE HTTP://EXAMPLE.COM") = true
      /\ Js.includes "http" (Js.toLowerCase "CLONE HTTP://EXAMPLE.COM") = true
      /\ exists reply,
           Chat.POST sample_registry
             (Some {| Chat.message := Some "CLONE HTTP://EXAMPLE.COM";
                      Chat.model := None; Chat.history := []; Chat.files := None |})
           = Chat.Json200 reply
           /\ Chat.category_of (Chat.type (Chat.metadata reply)) = Some Chat.none).
Proof.
  repeat split; try reflexivity;
    eexists; (split; [reflexivity|]); repeat split; try reflexivity; discriminate.
Qed.

(** ** Workspaces *)

Section WorkspaceProperties.

Import Workspace.

Lemma list_of_app (a b : string) :
  list_ascii_of_string (a +:+ b) = (list_ascii_of_string a ++ list_ascii_of_string b)%list.
Proof. induction a as [|c a IH]; simpl; [reflexivity | now f_equal]. Qed.

(** The two keys of a workspace never meet the keys of another one. *)
Lemma code_key_inj (id id' : string) :
  id +:+ "-code" = id' +:+ "-code" -> id = id'.
Proof. apply string_app_inv_tail. Qed.

Lemma fileName_key_inj (id id' : string) :
  id +:+ "-fileName" = id' +:+ "-fileName" -> id = id'.
Proof. apply string_app_inv_tail. Qed.

Lemma code_key_not_fileName_key (id id' : string) :
  id +:+ "-code" <> id' +:+ "-fileName".
Proof.
  intros H. apply (f_equal list_ascii_of_string) in H.
  rewrite !list_of_app in H. apply (f_equal (@rev ascii)) in H.
  rewrite !rev_app_distr in H. simpl in H. discriminate.
Qed.

Lemma or_else_some (id d : string) : id <> "" -> Js.or_else (Some id) d = id.
Proof. intros H. simpl. now rewrite (eqb_empty_false id H). Qed.

Lemma setItem_returns (k v : string) (b b' : Browser) (u : unit) :
  setItem k v b = Return u b' ->
  storage b' = <[k := v]> (storage b) /\ quota b' = quota b /\ opened b' = opened b.
Proof.
  unfold setItem. destruct (decide _); [|discriminate].
  intros [= _ <-]. repeat split.
Qed.

(** What a save that returns has written, and the id it returns. *)
Lemma save_returns (c f : string) (wid : option string) (now : N)
    (b b' : Browser) (i : string) :
  saveCodeToWorkspace c f wid now b = Return i b' ->
  i = Js.or_else wid (fresh_id now)
  /\ storage b' = <[i +:+ "-fileName" := f]> (<[i +:+ "-code" := c]> (storage b))
  /\ quota b' = quota b.
Proof.
  unfold saveCodeToWorkspace, bind, ret.
  destruct (setItem _ c b) as [u1 b1|] eqn:E1; [|discriminate].
  destruct (setItem _ f b1) as [u2 b2|] eqn:E2; [|discriminate].
  intros [= <- <-].
  apply setItem_returns in E1 as (S1 & Q1 & _).
  apply setItem_returns in E2 as (S2 & Q2 & _).
  split; [reflexivity|]. rewrite S2, S1, Q2, Q1. split; reflexivity.
Qed.

Lemma load_eq (id : string) (b : Browser) :
  loadCodeFromWorkspace id b =
  Return {| loaded_code := storage b !! (id +:+ "-code");
            loaded_fileName := storage b !! (id +:+ "-fileName") |} b.
Proof. reflexivity. Qed.

(** A save leaves the two entries of every other workspace as they were. *)
Lemma save_frame (c f : string) (wid : option string) (now : N)
    (b b' : Browser) (i other : string) :
  saveCodeToWorkspace c f wid now b = Return i b' -> other <> i ->
  storage b' !! (other +:+ "-code") = storage b !! (other +:+ "-code")
  /\ storage b' !! (other +:+ "-fileName") = storage b !! (other +:+ "-fileName").
Proof.
  intros H Hne. apply save_returns in H as (_ & -> & _).
  split.
  - rewrite lookup_insert_ne.
    2:{ intros E. symmetry in E. exact (code_key_not_fileName_key _ _ E). }
    rewrite lookup_insert_ne; [reflexivity|].
    intros E. apply code_key_inj in E. congruence.
  - rewrite lookup_insert_ne.
    2:{ intros E. apply fileName_key_inj in E. congruence. }
    rewrite lookup_insert_ne; [reflexivity|].
    apply code_key_not_fileName_key.
Qed.

(** What a call of [openIDEWorkspace] that returns has written. *)
Lemma open_returns (md : option IDEMetadata) (now : N) (b b' : Browser) (r : Opened) :
  openIDEWorkspace md now b = Return r b' ->
  workspaceId r = fresh_id now
  /\ (storage b' = storage b
      \/ exists c f, storage b' = <[fresh_id now +:+ "-fileName" := f]>
                                    (<[fresh_id now +:+ "-code" := c]> (storage b))).
Proof.
  unfold openIDEWorkspace, bind, ret, window_open, modify.
  destruct md as [md|]; [destruct (Js.truthy (code md))|].
  - destruct (setItem _ _ b) as [u1 b1|] eqn:E1; [|discriminate].
    destruct (setItem _ _ b1) as [u2 b2|] eqn:E2; [|discriminate].
    intros [= <- <-]. simpl.
    apply setItem_returns in E1 as (S1 & _ & _).
    apply setItem_returns in E2 as (S2 & _ & _).
    split; [reflexivity|]. right. eexists. eexists. rewrite S2, S1. reflexivity.
  - intros [= <- <-]. simpl. split; [reflexivity | now left].
  - intros [= <- <-]. simpl. split; [reflexivity | now left].
Qed.

Lemma insert_pair_frame (m : gmap string string) (i other c f : string) :
  other <> i ->
  <[i +:+ "-fileName" := f]> (<[i +:+ "-code" := c]> m) !! (other +:+ "-code")
  = m !! (other +:+ "-code")
  /\ <[i +:+ "-fileName" := f]> (<[i +:+ "-code" := c]> m) !! (other +:+ "-fileName")
     = m !! (other +:+ "-fileName").
Proof.
  intros Hne. split.
  - rewrite lookup_insert_ne.
    2:{ intros E. symmetry in E. exact (code_key_not_fileName_key _ _ E). }
    rewrite lookup_insert_ne; [reflexivity|].
    intros E. apply code_key_inj in E. congruence.
  - rewrite lookup_insert_ne.
    2:{ intros E. apply fileName_key_inj in E. congruence. }
    rewrite lookup_insert_ne; [reflexivity|].
    apply code_key_not_fileName_key.
Qed.

(** The id a call returns is the workspace it worked on. *)
Lemma perform_id (c : Call) (now : N) (b b' : Browser) (i : string) :
  perform c now b = Return i b' -> i = target c now.
Proof.
  destruct c as [md | c f wid]; simpl.
  - unfold bind, ret.
    destruct (openIDEWorkspace md now b) as [r b1|] eqn:E; [|discriminate].
    intros [= <- _]. now apply open_returns in E as [-> _].
  - intros H. now apply save_returns in H as (-> & _).
Qed.

(** A call leaves the two entries of every other workspace as they were. *)
Lemma perform_frame (c : Call) (now : N) (b b' : Browser) (i other : string) :
  perform c now b = Return i b' -> other <> target c now ->
  storage b' !! (other +:+ "-code") = storage b !! (other +:+ "-code")
  /\ storage b' !! (other +:+ "-fileName") = storage b !! (other +:+ "-fileName").
Proof.
  destruct c as [md | c f wid]; simpl; intros H Hne.
  - unfold bind, ret in H.
    destruct (openIDEWorkspace md now b) as [r b1|] eqn:E; [|discriminate].
    injection H as _ <-.
    apply open_returns in E as [_ [-> | (c & f & ->)]].
    + split; reflexivity.
    + now apply insert_pair_frame.
  - pose proof (save_returns _ _ _ _ _ _ _ H) as (-> & _).
    now apply (save_frame _ _ _ _ _ _ _ other H).
Qed.

Lemma perform_all_ids (calls : list (Call * N)) (b b' : Browser) (ids : list string) :
  perform_all calls b = Return ids b' ->
  ids = map (fun call => target (fst call) (snd call)) calls.
Proof.
  revert b b' ids. induction calls as [|[c now] calls IH]; intros b b' ids; simpl.
  - now intros [= <- _].
  - unfold bind, ret.
    destruct (perform c now b) as [i b1|] eqn:E1; [|discriminate].
    destruct (perform_all calls b1) as [ids1 b2|] eqn:E2; [|discriminate].
    intros [= <- _]. apply perform_id in E1 as ->.
    now rewrite (IH _ _ _ E2).
Qed.

(** A run of calls none of which works on [id] leaves the two entries of
    [id] as they were. *)
Lemma perform_all_frame (calls : list (Call * N)) (b b' : Browser)
    (ids : list string) (id : string) :
  Forall (fun call => target (fst call) (snd call) <> id) calls ->
  perform_all calls b = Return ids b' ->
  storage b' !! (id +:+ "-code") = storage b !! (id +:+ "-code")
  /\ storage b' !! (id +:+ "-fileName") = storage b !! (id +:+ "-fileName").
Proof.
  revert b ids. induction calls as [|[c now] calls IH]; intros b ids Hall H.
  - injection H as _ <-. split; reflexivity.
  - apply Forall_cons in Hall as [Hne Hall]. simpl in Hne, H.
    unfold bind, ret in H.
    destruct (perform c now b) as [i b1|] eqn:E1; [|discriminate].
    destruct (perform_all calls b1) as [ids1 b2|] eqn:E2; [|discriminate].
    injection H as _ <-.
    destruct (IH b1 ids1 Hall E2) as [-> ->].
    apply (perform_frame _ _ _ _ _ id E1). congruence.
Qed.

Lemma target_of_allocation (c : Call) (now : N) :
  allocates c = true -> target c now = fresh_id now.
Proof.
  destruct c as [md | c f [wid|]]; simpl; try reflexivity.
  destruct (String.eqb wid ""); [reflexivity | discriminate].
Qed.

#[local] Instance fresh_id_inj : Inj (=) (=) fresh_id.
Proof.
  unfold fresh_id. intros t t' H.
  apply (inj (String.append "workspace-")) in H.
  now apply (inj pretty) in H.
Qed.

(** Allocations are distinct as far as the clock readings are. *)
Lemma allocations_distinct (calls : list (Call * N)) (b b' : Browser) (ids : list string) :
  Forall (fun call => allocates (fst call) = true) calls ->
  perform_all calls b = Return ids b' ->
  NoDup (map snd calls) -> NoDup ids.
Proof.
  intros Hall H Hnd. apply perform_all_ids in H as ->.
  assert (E : map (fun call : Call * N => target (fst call) (snd call)) calls
              = map fresh_id (map snd calls)).
  { rewrite map_map. apply map_ext_Forall.
    eapply Forall_impl; [exact Hall|]. intros [c now] Hc; simpl in *.
    now apply target_of_allocation. }
  rewrite E. apply (NoDup_fmap_2 fresh_id), Hnd.
Qed.

End WorkspaceProperties.

(** C1. The code breaks the claim: two allocations made while the clock
    reads the same millisecond get the same identity. *)
Theorem C1_same_millisecond_same_id :
  exists b',
    Workspace.perform_all
      [ (Workspace.SaveCode "export default 1" "app.tsx" None, 1700000000000%N);
        (Workspace.OpenIDE None, 1700000000000%N) ]
      roomy_browser
    = Return [ "workspace-1700000000000"; "workspace-1700000000000" ] b'.
Proof. eexists. vm_compute. reflexivity. Qed.

(** C4 (amended). A save returns normally, with both entries written, exactly
    when the store has room for its two writes; when the store has no room
    for one of them, the [QuotaExceededError] of [setItem] reaches the
    caller, and a first write that fitted stays written. *)
Theorem C4_save_raises_when_no_room
    (code fileName : string) (workspaceId : option string) (now : N)
    (b : Workspace.Browser) :
  let id := Js.or_else workspaceId (Workspace.fresh_id now) in
  let m1 := <[id +:+ "-code" := code]> (Workspace.storage b) in
  let m2 := <[id +:+ "-fileName" := fileName]> m1 in
  let wrote m := {| Workspace.storage := m; Workspace.quota := Workspace.quota b;
                    Workspace.opened := Workspace.opened b |} in
  ((Workspace.usage m1 <= Workspace.quota b)%N
   /\ (Workspace.usage m2 <= Workspace.quota b)%N
   /\ Workspace.saveCodeToWorkspace code fileName workspaceId now b
      = Return id (wrote m2))
  \/ ((Workspace.usage m1 <= Workspace.quota b)%N
      /\ (Workspace.quota b < Workspace.usage m2)%N
      /\ Workspace.saveCodeToWorkspace code fileName workspaceId now b
         = Throw QuotaExceededError (wrote m1))
  \/ ((Workspace.quota b < Workspace.usage m1)%N
      /\ Workspace.saveCodeToWorkspace code fileName workspaceId now b
         = Throw QuotaExceededError b).
Proof.
  intros id m1 m2 wrote.
  unfold Workspace.saveCodeToWorkspace, bind, ret, Workspace.setItem.
  fold id. fold m1.
  destruct (decide (Workspace.usage m1 <= Workspace.quota b)%N) as [H1|H1].
  - simpl. fold m2.
    destruct (decide (Workspace.usage m2 <= Workspace.quota b)%N) as [H2|H2].
    + left. repeat split; assumption.
    + right; left. repeat split; [assumption | lia].
  - right; right. split; [lia | reflexivity].
Qed.

(** C4 as stated fails: on a store without room the save raises. *)
Lemma C4_counterexample :
  Workspace.saveCodeToWorkspace "export default 1" "app.tsx" (Some "workspace-1") 0%N
    full_browser
  = Throw QuotaExceededError full_browser.
Proof. vm_compute. reflexivity. Qed.

(** C6 (amended). A workspace holds one code entry and one file-name entry:
    after two saves under one id that both return, loading the id gives the
    second source and the second file name, whatever the two names are, and
    the entries of every other workspace are what they were before. *)
Theorem C6_save_overwrites_the_workspace_slot
    (id f1 f2 s1 s2 : string) (now1 now2 : N)
    (b b1 b2 : Workspace.Browser) (i1 i2 : string) :
  id <> "" ->
  Workspace.saveCodeToWorkspace s1 f1 (Some id) now1 b = Return i1 b1 ->
  Workspace.saveCodeToWorkspace s2 f2 (Some id) now2 b1 = Return i2 b2 ->
  Workspace.loadCodeFromWorkspace id b2
  = Return {| Workspace.loaded_code := Some s2;
              Workspace.loaded_fileName := Some f2 |} b2
  /\ forall other, other <> id ->
       exists l, Workspace.loadCodeFromWorkspace other b2 = Return l b2
                 /\ Workspace.loadCodeFromWorkspace other b = Return l b.
Proof.
  intros Hid H1 H2.
  pose proof (save_returns _ _ _ _ _ _ _ H1) as (E1 & _ & _).
  pose proof (save_returns _ _ _ _ _ _ _ H2) as (E2 & S2 & _).
  rewrite (or_else_some id _ Hid) in E1. rewrite (or_else_some id _ Hid) in E2.
  subst i1 i2.
  split.
  - rewrite load_eq, S2. f_equal. f_equal.
    + rewrite lookup_insert_ne.
      2:{ intros E. symmetry in E. exact (code_key_not_fileName_key _ _ E). }
      apply lookup_insert_eq.
    + apply lookup_insert_eq.
  - intros other Hne. eexists. split; [apply load_eq|].
    rewrite load_eq.
    destruct (save_frame _ _ _ _ _ _ _ other H2 Hne) as [-> ->].
    destruct (save_frame _ _ _ _ _ _ _ other H1 Hne) as [-> ->].
    reflexivity.
Qed.

Lemma C6_save_overwrites_the_workspace_slot_witness :
  exists b1 b2,
    Workspace.saveCodeToWorkspace "one" "a.tsx" (Some "workspace-1") 0%N roomy_browser
    = Return "workspace-1" b1
    /\ Workspace.saveCodeToWorkspace "two" "b.tsx" (Some "workspace-1") 0%N b1
       = Return "workspace-1" b2
    /\ Workspace.loadCodeFromWorkspace "workspace-1" b2
       = Return {| Workspace.loaded_code := Some "two";
                   Workspace.loaded_fileName := Some "b.tsx" |} b2.
Proof.
  eexists. eexists.
  assert (H1 : Workspace.saveCodeToWorkspace "one" "a.tsx" (Some "workspace-1") 0%N
                 roomy_browser
               = Return "workspace-1"
                   {| Workspace.storage :=
                        <["workspace-1-fileName" := "a.tsx"]>
                          (<["workspace-1-code" := "one"]> ∅);
                      Workspace.quota := 5000000%N; Workspace.opened := [] |})
    by (vm_compute; reflexivity).
  assert (H2 : Workspace.saveCodeToWorkspace "two" "b.tsx" (Some "workspace-1") 0%N
                 {| Workspace.storage :=
                      <["workspace-1-fileName" := "a.tsx"]>
                        (<["workspace-1-code" := "one"]> ∅);
                    Workspace.quota := 5000000%N; Workspace.opened := [] |}
               = Return "workspace-1"
                   {| Workspace.storage :=
                        <["workspace-1-fileName" := "b.tsx"]>
                          (<["workspace-1-code" := "two"]>
                             (<["workspace-1-fileName" := "a.tsx"]>
                                (<["workspace-1-code" := "one"]> ∅)));
                      Workspace.quota := 5000000%N; Workspace.opened := [] |})
    by (vm_compute; reflexivity).
  split; [exact H1|]. split; [exact H2|].
  apply (C6_save_overwrites_the_workspace_slot
           "workspace-1" "a.tsx" "b.tsx" "one" "two" 0%N 0%N _ _ _ _ _
           ltac:(discriminate) H1 H2).
Defined.

(** C6 as stated fails: after a save under a second file name, the source
    saved under the first one is gone from the workspace. *)
Lemma C6_counterexample :
  exists b1 b2 l,
    Workspace.saveCodeToWorkspace "one" "a.tsx" (Some "workspace-1") 0%N roomy_browser
    = Return "workspace-1" b1
    /\ Workspace.saveCodeToWorkspace "two" "b.tsx" (Some "workspace-1") 0%N b1
       = Return "workspace-1" b2
    /\ Workspace.loadCodeFromWorkspace "workspace-1" b2 = Return l b2
    /\ Workspace.loaded_code l = Some "two"
    /\ Workspace.loaded_code l <> Some "one"
    /\ forall key, Workspace.storage b2 !! key <> Some "one".
Proof.
  eexists. eexists. eexists.
  split; [vm_compute; reflexivity|].
  split; [vm_compute; reflexivity|].
  split; [vm_compute; reflexivity|].
  split; [reflexivity|]. split; [discriminate|].
  intros key H.
  apply (elem_of_map_to_list _ key "one") in H.
  vm_compute in H.
  change (list_elem_of (key, "one")
            [("workspace-1-code", "two"); ("workspace-1-fileName", "b.tsx")])
    with ((key, "one") ∈ [("workspace-1-code", "two"); ("workspace-1-fileName", "b.tsx")])
    in H.
  rewrite !elem_of_cons, elem_of_nil in H.
  destruct H as [H | [H | []]]; discriminate H.
Qed.

(** C7 (amended). A save that returns, under an id that is not the empty
    string, followed by a load of that id returns the saved source and file
    name (a load takes the id only); after any run of calls on an empty
    store none of which worked on an id, a load of that id returns the
    empty result; and a load never raises and leaves the store as it is. *)
Theorem C7_round_trip_and_not_found :
  (forall (id f s : string) (now : N) (b b' : Workspace.Browser) (i : string),
      id <> "" ->
      Workspace.saveCodeToWorkspace s f (Some id) now b = Return i b' ->
      Workspace.loadCodeFromWorkspace id b'
      = Return {| Workspace.loaded_code := Some s;
                  Workspace.loaded_fileName := Some f |} b')
  /\ (forall (id : string) (calls : list (Workspace.Call * N))
             (room : N) (urls : list string) (ids : list string)
             (b' : Workspace.Browser),
        Forall (fun call => Workspace.target (fst call) (snd call) <> id) calls ->
        Workspace.perform_all calls
          {| Workspace.storage := ∅; Workspace.quota := room; Workspace.opened := urls |}
        = Return ids b' ->
        Workspace.loadCodeFromWorkspace id b'
        = Return {| Workspace.loaded_code := None;
                    Workspace.loaded_fileName := None |} b')
  /\ (forall (id : string) (b : Workspace.Browser),
        exists l, Workspace.loadCodeFromWorkspace id b = Return l b).
Proof.
  split; [|split].
  - intros id f s now b b' i Hid H.
    pose proof (save_returns _ _ _ _ _ _ _ H) as (Ei & S & _).
    rewrite (or_else_some id _ Hid) in Ei. subst i.
    rewrite load_eq, S. f_equal. f_equal.
    + rewrite lookup_insert_ne.
      2:{ intros E. symmetry in E. exact (code_key_not_fileName_key _ _ E). }
      apply lookup_insert_eq.
    + apply lookup_insert_eq.
  - intros id calls room urls ids b' Hall H.
    destruct (perform_all_frame _ _ _ _ id Hall H) as [Hc Hf].
    rewrite load_eq, Hc, Hf. simpl. rewrite !lookup_empty. reflexivity.
  - intros id b. eexists. apply load_eq.
Qed.

Lemma C7_round_trip_and_not_found_witness :
  (exists b',
     Workspace.saveCodeToWorkspace "export default 1" "app.tsx" (Some "workspace-1") 0%N
       roomy_browser
     = Return "workspace-1" b'
     /\ Workspace.loadCodeFromWorkspace "workspace-1" b'
        = Return {| Workspace.loaded_code := Some "export default 1";
                    Workspace.loaded_fileName := Some "app.tsx" |} b')
  /\ (exists ids b',
        Workspace.perform_all
          [(Workspace.SaveCode "one" "a.tsx" (Some "workspace-1"), 0%N);
           (Workspace.SaveCode "two" "b.tsx" None, 7%N)]
          roomy_browser
        = Return ids b'
        /\ Workspace.loadCodeFromWorkspace "workspace-2" b'
           = Return {| Workspace.loaded_code := None;
                       Workspace.loaded_fileName := None |} b').
Proof.
  split.
  - eexists.
    assert (H : Workspace.saveCodeToWorkspace "export default 1" "app.tsx"
                  (Some "workspace-1") 0%N roomy_browser
                = Return "workspace-1"
                    {| Workspace.storage :=
                         <["workspace-1-fileName" := "app.tsx"]>
                           (<["workspace-1-code" := "export default 1"]> ∅);
                       Workspace.quota := 5000000%N; Workspace.opened := [] |})
      by (vm_compute; reflexivity).
    split; [exact H|].
    apply (proj1 C7_round_trip_and_not_found "workspace-1" "app.tsx"
             "export default 1" 0%N _ _ _ ltac:(discriminate) H).
  - eexists. eexists.
    assert (H : Workspace.perform_all
                  [(Workspace.SaveCode "one" "a.tsx" (Some "workspace-1"), 0%N);
                   (Workspace.SaveCode "two" "b.tsx" None, 7%N)]
                  roomy_browser
                = Return ["workspace-1"; "workspace-7"]
                    {| Workspace.storage :=
                         <["workspace-7-fileName" := "b.tsx"]>
                           (<["workspace-7-code" := "two"]>
                              (<["workspace-1-fileName" := "a.tsx"]>
                                 (<["workspace-1-code" := "one"]> ∅)));
                       Workspace.quota := 5000000%N; Workspace.opened := [] |})
      by (vm_compute; reflexivity).
    split; [exact H|].
    assert (Hall : Forall (fun call : Workspace.Call * N =>
                             Workspace.target (fst call) (snd call) <> "workspace-2")
                          [(Workspace.SaveCode "one" "a.tsx" (Some "workspace-1"), 0%N);
                           (Workspace.SaveCode "two" "b.tsx" None, 7%N)])
      by (repeat constructor; intros E; vm_compute in E; discriminate E).
    apply (proj1 (proj2 C7_round_trip_and_not_found) "workspace-2" _ _ _ _ _ Hall H).
Defined.

(** C7 as stated fails.  A save under the empty id stores under a fresh id,
    so loading the empty id finds nothing; and a workspace has one source
    only, so after a save under "a.tsx", where nothing was ever saved under
    "b.tsx", the one load there is for the workspace still returns the
    source of "a.tsx" and not the empty result. *)
Lemma C7_counterexample :
  (exists b',
     Workspace.saveCodeToWorkspace "one" "a.tsx" (Some "") 42%N roomy_browser
     = Return "workspace-42" b'
     /\ Workspace.loadCodeFromWorkspace "" b'
        = Return {| Workspace.loaded_code := None;
                    Workspace.loaded_fileName := None |} b')
  /\ (exists b',
        Workspace.saveCodeToWorkspace "one" "a.tsx" (Some "workspace-1") 0%N roomy_browser
        = Return "workspace-1" b'
        /\ (forall key, Workspace.storage b' !! key <> Some "b.tsx")
        /\ Workspace.loadCodeFromWorkspace "workspace-1" b'
           = Return {| Workspace.loaded_code := Some "one";
                       Workspace.loaded_fileName := Some "a.tsx" |} b').
Proof.
  split.
  - eexists. split; [vm_compute; reflexivity|]. vm_compute. reflexivity.
  - eexists. split; [vm_compute; reflexivity|]. split; [|vm_compute; reflexivity].
    intros key H.
    apply (elem_of_map_to_list _ key "b.tsx") in H.
    vm_compute in H.
    change (list_elem_of (key, "b.tsx")
              [("workspace-1-code", "one"); ("workspace-1-fileName", "a.tsx")])
      with ((key, "b.tsx") ∈ [("workspace-1-code", "one"); ("workspace-1-fileName", "a.tsx")])
      in H.
    rewrite !elem_of_cons, elem_of_nil in H.
    destruct H as [H | [H | []]]; discriminate H.
Qed.

(** ** File upload *)

(** Outside the image and zip branches a file whose text cannot be read
    still gets its descriptor, with neither content nor object URL. *)
Lemma extract_text_branch_falls_back (file : Upload.RawFile) (st : Upload.State) :
  Js.startsWith "image/" (Upload.type file) = false ->
  String.eqb (Upload.type file) "application/zip"
  || Js.endsWith ".zip" (Upload.name file) = false ->
  Upload.text file = None ->
  Upload.extract file st
  = Return (File.mk (Upload.name file) (Upload.type file) (Upload.size file) None None) st.
Proof.
  intros Hi Hz Ht. unfold Upload.extract, Upload.read_text.
  rewrite Hi, Hz, Ht. reflexivity.
Qed.

(** The image branch never reads the file. *)
Lemma extract_image_branch (file : Upload.RawFile) (st : Upload.State) :
  Js.startsWith "image/" (Upload.type file) = true ->
  exists url st',
    Upload.extract file st
    = Return (File.mk (Upload.name file) (Upload.type file) (Upload.size file)
                None (Some url)) st'.
Proof.
  intros Hi. unfold Upload.extract. rewrite Hi. eexists. eexists. reflexivity.
Qed.

(** In the zip branch the rejection of [text()] leaves [extract]. *)
Lemma extract_zip_branch_raises (file : Upload.RawFile) (st : Upload.State) :
  Js.startsWith "image/" (Upload.type file) = false ->
  String.eqb (Upload.type file) "application/zip"
  || Js.endsWith ".zip" (Upload.name file) = true ->
  Upload.text file = None ->
  Upload.extract file st = Throw NotReadableError st.
Proof.
  intros Hi Hz Ht. unfold Upload.extract, Upload.read_text.
  rewrite Hi, Hz, Ht. reflexivity.
Qed.

(** C5. The code breaks the claim in the zip branch: for a zip archive whose
    text cannot be read, extraction raises, and an upload that contains it
    adds no descriptor at all, not even that of a readable file before it;
    the same unreadable content under a text type gets its descriptor. *)
Theorem C5_unreadable_zip_raises :
  Upload.extract unreadable_zip no_uploads = Throw NotReadableError no_uploads
  /\ Upload.handleFileUpload (Some [readable_notes; unreadable_zip]) no_uploads
     = Throw NotReadableError no_uploads
  /\ Upload.extract unreadable_notes no_uploads
     = Return (File.mk "notes.txt" "text/plain" 5%N None None) no_uploads.
Proof. repeat split. Qed.

(** ** Deployment *)

Section DeployProperties.

Import Deploy.

Variable fetch : Request -> FetchResult.

(** One run of [handleDeploy], up to the pending timer. *)
Lemma handleDeploy_outcome (p : Platform) (now : N) (s : IDE) :
  exists s',
    handleDeploy fetch p now s = Return tt s'
    /\ timers s' = (timers s ++ [(3000, idle)])%list
    /\ match reported_success (fetch (request_of p s)) with
       | Some d =>
           deploymentStatus s' = succeeded
           /\ statusLog s' = (statusLog s ++ [deploying; succeeded])%list
           /\ messages s' =
              (messages s ++ [{| id := pretty now; to := platform_name p;
                                 deploymentUrl := interpolate (url d);
                                 repository := interpolate (repoUrl d) |}])%list
       | None =>
           deploymentStatus s' = failed
           /\ statusLog s' = (statusLog s ++ [deploying; failed])%list
           /\ messages s' = messages s
       end.
Proof.
  unfold handleDeploy, bind, try_catch, get, fetch_json, request_of; simpl.
  destruct (fetch _) as [| | |d]; simpl;
    try (eexists; split; [reflexivity|]; simpl;
         rewrite <- app_assoc; repeat split; reflexivity).
  destruct (success d); simpl;
    (eexists; split; [reflexivity|]; simpl;
     rewrite <- app_assoc; repeat split; reflexivity).
Qed.

End DeployProperties.

(** C8. Every run of [handleDeploy] returns normally with the status
    succeeded or failed.  Whenever the transport fails, or the body is not
    JSON, or is [null], or does not report success, the status is failed and
    no message with result URLs is added.  Whenever the body reports success
    with a [url] and a [repoUrl], the status is succeeded and the message
    carries exactly these two.  The endpoint of this repository answers a
    deploy of "app.tsx" to vercel with success, a [url] and a [repoUrl],
    neither of them empty, and the run against it ends succeeded with a
    message that carries them. *)
Theorem C8_deploy_reports_a_terminal_status :
  (forall (fetch : Deploy.Request -> Deploy.FetchResult) (p : Deploy.Platform)
          (now : N) (s : Deploy.IDE),
      exists s',
        Deploy.handleDeploy fetch p now s = Return tt s'
        /\ (Deploy.deploymentStatus s' = Deploy.succeeded
            \/ Deploy.deploymentStatus s' = Deploy.failed)
        /\ match Deploy.reported_success (fetch (Deploy.request_of p s)) with
           | Some d =>
               Deploy.deploymentStatus s' = Deploy.succeeded
               /\ Deploy.messages s' =
                  Deploy.messages s ++
                  [{| Deploy.id := pretty now; Deploy.to := Deploy.platform_name p;
                      Deploy.deploymentUrl := Deploy.interpolate (Deploy.url d);
                      Deploy.repository := Deploy.interpolate (Deploy.repoUrl d) |}]
           | None =>
               Deploy.deploymentStatus s' = Deploy.failed
               /\ Deploy.messages s' = Deploy.messages s
           end)
  /\ (forall (fetch : Deploy.Request -> Deploy.FetchResult) (p : Deploy.Platform)
             (now : N) (s : Deploy.IDE) (d : Deploy.Json) (u r : string),
        fetch (Deploy.request_of p s) = Deploy.JsonObject d ->
        Deploy.success d = true ->
        Deploy.url d = Some u ->
        Deploy.repoUrl d = Some r ->
        exists s',
          Deploy.handleDeploy fetch p now s = Return tt s'
          /\ Deploy.deploymentStatus s' = Deploy.succeeded
          /\ Deploy.messages s' =
             Deploy.messages s ++
             [{| Deploy.id := pretty now; Deploy.to := Deploy.platform_name p;
                 Deploy.deploymentUrl := u; Deploy.repository := r |}])
  /\ (forall (now1 now2 now : N) (code : string) (tree : list string),
        exists s' u r,
          Deploy.success
            (Deploy.POST (Some (Deploy.request_of Deploy.vercel
                                  (Deploy.mounted code "app.tsx" tree))) now1 now2)
          = true
          /\ Deploy.url
               (Deploy.POST (Some (Deploy.request_of Deploy.vercel
                                     (Deploy.mounted code "app.tsx" tree))) now1 now2)
             = Some u
          /\ Deploy.repoUrl
               (Deploy.POST (Some (Deploy.request_of Deploy.vercel
                                     (Deploy.mounted code "app.tsx" tree))) now1 now2)
             = Some r
          /\ u <> "" /\ r <> ""
          /\ Deploy.handleDeploy (Deploy.endpoint now1 now2) Deploy.vercel now
               (Deploy.mounted code "app.tsx" tree)
             = Return tt s'
          /\ Deploy.deploymentStatus s' = Deploy.succeeded
          /\ Deploy.messages s' =
             [{| Deploy.id := pretty now; Deploy.to := "vercel";
                 Deploy.deploymentUrl := u; Deploy.repository := r |}]).
Proof.
  split; [|split].
  - intros fetch p now s.
    destruct (handleDeploy_outcome fetch p now s) as (s' & Hrun & _ & H).
    exists s'. split; [exact Hrun|].
    destruct (Deploy.reported_success _) as [d|].
    + destruct H as (Hs & _ & Hm). repeat split; auto.
    + destruct H as (Hs & _ & Hm). repeat split; auto.
  - intros fetch p now s d u r Hf Hok Hu Hr.
    destruct (handleDeploy_outcome fetch p now s) as (s' & Hrun & _ & H).
    rewrite Hf in H. simpl in H. rewrite Hok in H.
    destruct H as (Hs & _ & Hm).
    exists s'. split; [exact Hrun|]. split; [exact Hs|].
    rewrite Hm, Hu, Hr. reflexivity.
  - intros now1 now2 now code tree.
    destruct (handleDeploy_outcome (Deploy.endpoint now1 now2) Deploy.vercel now
                (Deploy.mounted code "app.tsx" tree)) as (s' & Hrun & _ & H).
    simpl in H. destruct H as (Hs & _ & Hm).
    exists s'. eexists. eexists.
    split; [reflexivity|]. split; [reflexivity|]. split; [reflexivity|].
    split; [discriminate|]. split; [discriminate|].
    split; [exact Hrun|]. split; [exact Hs|]. exact Hm.
Qed.





(** * Further properties of the code *)

(** ** The chat endpoint *)

Lemma existsb_permutation {A : Type} (p : A -> bool) (l l' : list A) :
  Permutation l l' -> existsb p l = existsb p l'.
Proof.
  induction 1 as [|x l l' _ IH|x y l|l l' l'' _ IH1 _ IH2]; simpl.
  - reflexivity.
  - now rewrite IH.
  - now rewrite !orb_assoc, (orb_comm (p y)).
  - now rewrite IH1.
Qed.

(** What [respond] answers: a metadata object that asks for the IDE and has
    the type of a category other than none, or the empty metadata object. *)
Lemma respond_shape (r : Chat.Request) (text : Chat.Narrative) (meta : Chat.Metadata) :
  Chat.respond r = inr (text, meta) ->
  (Chat.openIDE meta = Some true
   /\ exists c, Chat.category_of (Chat.type meta) = Some c /\ c <> Chat.none)
  \/ (Chat.openIDE meta = None /\ Chat.type meta = None).
Proof.
  unfold Chat.respond.
  assert (Hf : forall fs, (text, meta) = Chat.on_files fs ->
             Chat.openIDE meta = Some true
             /\ exists c, Chat.category_of (Chat.type meta) = Some c /\ c <> Chat.none).
  { intros fs. unfold Chat.on_files.
    repeat match goal with
           | |- context [if ?b then _ else _] => destruct b
           end; intros [= -> ->]; simpl;
      (split; [reflexivity | eexists; split; [reflexivity | discriminate]]). }
  assert (Hm : forall m, (text, meta) = Chat.on_message m ->
             (Chat.openIDE meta = Some true
              /\ exists c, Chat.category_of (Chat.type meta) = Some c /\ c <> Chat.none)
             \/ (Chat.openIDE meta = None /\ Chat.type meta = None)).
  { intros m. unfold Chat.on_message.
    repeat match goal with
           | |- context [if ?b then _ else _] => destruct b
           end; intros [= -> ->]; simpl;
      first [ right; split; reflexivity
            | left; split; [reflexivity | eexists; split; [reflexivity | discriminate]] ]. }
  destruct (Chat.files r) as [[|f fs]|]; try destruct (Chat.message r) as [m|];
    try discriminate; intros [= H]; eauto.
Qed.

(** X1. When files are attached, the answer of the endpoint does not depend
    on the message: any two requests with the same non-empty files and the
    same model get the same reply, even when one of them has no message at
    all, and the reply hands the attached files back in its metadata. *)
Theorem X1_files_take_precedence
    (cfg : Chat.Registry) (m1 m2 : option string) (model : option string)
    (h1 h2 : list Chat.Message.t) (f : File.t) (fs : list File.t) :
  Chat.POST cfg (Some {| Chat.message := m1; Chat.model := model;
                         Chat.history := h1; Chat.files := Some (f :: fs) |})
  = Chat.POST cfg (Some {| Chat.message := m2; Chat.model := model;
                           Chat.history := h2; Chat.files := Some (f :: fs) |})
  /\ exists reply,
       Chat.POST cfg (Some {| Chat.message := m1; Chat.model := model;
                              Chat.history := h1; Chat.files := Some (f :: fs) |})
       = Chat.Json200 reply
       /\ Chat.attached (Chat.metadata reply) = Some (f :: fs).
Proof.
  split; [reflexivity|].
  unfold Chat.POST, Chat.respond; simpl.
  destruct (Chat.on_files (f :: fs)) as [text meta] eqn:E.
  eexists. split; [reflexivity|]. simpl.
  revert E. unfold Chat.on_files.
  repeat match goal with
         | |- context [if ?b then _ else _] => destruct b
         end; intros [= _ <-]; reflexivity.
Qed.

(** X2. The category chosen for attached files does not depend on the order
    in which they are attached. *)
Theorem X2_file_category_ignores_order
    (cfg : Chat.Registry) (message model : option string)
    (history : list Chat.Message.t) (fs fs' : list File.t) :
  fs <> [] ->
  Permutation fs fs' ->
  exists reply reply',
    Chat.POST cfg (Some {| Chat.message := message; Chat.model := model;
                           Chat.history := history; Chat.files := Some fs |})
    = Chat.Json200 reply
    /\ Chat.POST cfg (Some {| Chat.message := message; Chat.model := model;
                              Chat.history := history; Chat.files := Some fs' |})
       = Chat.Json200 reply'
    /\ Chat.type (Chat.metadata reply) = Chat.type (Chat.metadata reply')
    /\ Chat.openIDE (Chat.metadata reply) = Chat.openIDE (Chat.metadata reply').
Proof.
  intros Hne Hp.
  destruct fs as [|f fs]; [congruence|].
  destruct fs' as [|f' fs'].
  { apply Permutation_sym, Permutation_nil in Hp. discriminate. }
  unfold Chat.POST, Chat.respond; simpl.
  destruct (Chat.on_files (f :: fs)) as [t1 m1] eqn:E1.
  destruct (Chat.on_files (f' :: fs')) as [t2 m2] eqn:E2.
  eexists. eexists. split; [reflexivity|]. split; [reflexivity|]. simpl.
  revert E1 E2. unfold Chat.on_files.
  rewrite (existsb_permutation _ _ _ Hp).
  rewrite (existsb_permutation (fun f0 => Js.endsWith ".zip" (File.name f0)) _ _ Hp).
  rewrite (existsb_permutation
             (fun f0 => Js.includes "figma" (File.name f0)
                        || Js.includes "figma" (File.type f0)) _ _ Hp).
  repeat match goal with
         | |- context [if ?b then _ else _] => destruct b
         end; intros [= _ <-] [= _ <-]; split; reflexivity.
Qed.

Lemma X2_file_category_ignores_order_witness :
  exists reply reply',
    Chat.POST sample_registry
      (Some {| Chat.message := Some "fix this"; Chat.model := None; Chat.history := [];
               Chat.files := Some [File.mk "site.zip" "application/zip" 10%N (Some "PK") None;
                                   File.mk "logo.png" "image/png" 20%N None (Some "blob:0")] |})
    = Chat.Json200 reply
    /\ Chat.POST sample_registry
         (Some {| Chat.message := Some "fix this"; Chat.model := None; Chat.history := [];
                  Chat.files := Some [File.mk "logo.png" "image/png" 20%N None (Some "blob:0");
                                      File.mk "site.zip" "application/zip" 10%N (Some "PK") None] |})
       = Chat.Json200 reply'
    /\ Chat.type (Chat.metadata reply) = Chat.type (Chat.metadata reply')
    /\ Chat.openIDE (Chat.metadata reply) = Chat.openIDE (Chat.metadata reply').
Proof.
  apply (X2_file_category_ignores_order sample_registry (Some "fix this") None []).
  - discriminate.
  - apply perm_swap.
Defined.

(** X3. As soon as one attached file has an image type, the category is
    image-analysis, whatever else is attached (a zip archive, a Figma
    export) and whatever the message says; the reply text lists the names of
    all attached files, joined by a comma and a space. *)
Theorem X3_image_wins
    (cfg : Chat.Registry) (message model : option string)
    (history : list Chat.Message.t) (fs : list File.t) (f : File.t) :
  In f fs ->
  Js.startsWith "image/" (File.type f) = true ->
  exists reply,
    Chat.POST cfg (Some {| Chat.message := message; Chat.model := model;
                           Chat.history := history; Chat.files := Some fs |})
    = Chat.Json200 reply
    /\ Chat.category_of (Chat.type (Chat.metadata reply)) = Some Chat.image_analysis
    /\ Chat.response reply = Chat.ImageText (Js.join ", " (map File.name fs)).
Proof.
  intros Hin Himg.
  assert (He : existsb (fun f0 => Js.startsWith "image/" (File.type f0)) fs = true).
  { apply existsb_exists. exists f. split; assumption. }
  destruct fs as [|f0 fs]; [destruct Hin|].
  unfold Chat.POST, Chat.respond; simpl Chat.files; cbv iota.
  unfold Chat.on_files. rewrite He.
  eexists. split; [reflexivity|]. split; reflexivity.
Qed.

Lemma X3_image_wins_witness :
  exists reply,
    Chat.POST sample_registry
      (Some {| Chat.message := Some "clone https://github.com/acme/widgets";
               Chat.model := None; Chat.history := [];
               Chat.files := Some [File.mk "site.zip" "application/zip" 10%N (Some "PK") None;
                                   File.mk "logo.png" "image/png" 20%N None (Some "blob:0")] |})
    = Chat.Json200 reply
    /\ Chat.category_of (Chat.type (Chat.metadata reply)) = Some Chat.image_analysis
    /\ Chat.response reply = Chat.ImageText "site.zip, logo.png".
Proof.
  apply (X3_image_wins sample_registry (Some "clone https://github.com/acme/widgets")
           None []
           [File.mk "site.zip" "application/zip" 10%N (Some "PK") None;
            File.mk "logo.png" "image/png" 20%N None (Some "blob:0")]
           (File.mk "logo.png" "image/png" 20%N None (Some "blob:0"))).
  - right. left. reflexivity.
  - reflexivity.
Defined.

(** X4. In every reply of the endpoint the metadata asks for the IDE to be
    opened exactly when the category is not none. *)
Theorem X4_open_ide_unless_none
    (cfg : Chat.Registry) (r : Chat.Request) (reply : Chat.Reply) :
  Chat.POST cfg (Some r) = Chat.Json200 reply ->
  (Chat.openWorkspace (Chat.metadata reply) = true
   <-> Chat.category_of (Chat.type (Chat.metadata reply)) <> Some Chat.none).
Proof.
  unfold Chat.POST.
  destruct (Chat.respond r) as [e | [text meta]] eqn:E; [discriminate|].
  intros [= <-]. unfold Chat.openWorkspace; simpl.
  destruct (respond_shape r text meta E) as [(Ho & c & Hc & Hne) | (Ho & Ht)].
  - rewrite Ho, Hc. split; [congruence | reflexivity].
  - rewrite Ho, Ht. simpl. split; [discriminate | congruence].
Qed.

Lemma X4_open_ide_unless_none_witness :
  Chat.openWorkspace
    {| Chat.openIDE := Some true; Chat.type := Some "debug"; Chat.attached := None;
       Chat.url := None; Chat.appName := None; Chat.modelUsed := Some "GPT-4";
       Chat.provider := Some "OpenAI" |} = true
  <-> Chat.category_of (Some "debug") <> Some Chat.none.
Proof.
  exact (X4_open_ide_unless_none sample_registry
           {| Chat.message := Some "please fix the login page";
              Chat.model := Some "gpt-4"; Chat.history := []; Chat.files := None |}
           _ eq_refl).
Defined.

(** X5. A body that cannot be parsed, and a body with no message and no
    file, get the error response; and every error response of the endpoint
    carries the same text, "Failed to process request". *)
Theorem X5_error_response (cfg : Chat.Registry) :
  Chat.POST cfg None = Chat.Json500 "Failed to process request"
  /\ (forall r, Chat.message r = None ->
                Chat.files r = None \/ Chat.files r = Some [] ->
                Chat.POST cfg (Some r) = Chat.Json500 "Failed to process request")
  /\ (forall body e, Chat.POST cfg body = Chat.Json500 e ->
                     e = "Failed to process request").
Proof.
  unfold Chat.POST, Chat.respond. split; [reflexivity|]. split.
  - intros r Hm Hf. rewrite Hm. destruct Hf as [-> | ->]; reflexivity.
  - intros body e. destruct body as [r|]; [|now intros [= <-]].
    destruct (match Chat.files r with
              | Some (f :: fs) => inr (Chat.on_files (f :: fs))
              | _ => match Chat.message r with
                     | Some m => inr (Chat.on_message m)
                     | None => inl TypeError
                     end
              end) as [x | [t m]]; [now intros [= <-] | discriminate].
Qed.

(** ** [extractUrl] and [extractAppName] *)

Lemma string_app_empty_r (s : string) : s +:+ "" = s.
Proof. induction s as [|c s IH]; simpl; [reflexivity | now f_equal]. Qed.

Lemma all_chars_app (p : ascii -> bool) (a b : string) :
  UrlSpec.all_chars p (a +:+ b) = UrlSpec.all_chars p a && UrlSpec.all_chars p b.
Proof.
  induction a as [|c a IH]; simpl; [reflexivity|].
  now rewrite IH, andb_assoc.
Qed.

(** At the head of a string that begins with something of the pattern's
    shape, the match is that beginning, extended as far as no white space
    comes. *)
Lemma url_at_exact (u post : string) :
  UrlSpec.url_shaped u ->
  Chat.url_at (u +:+ post)
  = Some (u +:+ Js.take_while (fun c => negb (Js.is_space c)) post).
Proof.
  intros (rest & Hu & Hne & Hall). unfold UrlSpec.non_space in Hall.
  unfold Chat.url_at.
  destruct Hu as [-> | ->]; rewrite !string_app_assoc.
  - replace (Js.startsWith "https://" ("http://" +:+ rest +:+ post)) with false
      by reflexivity.
    rewrite (startsWith_app "http://").
    change 7 with (String.length "http://"). rewrite drop_app.
    rewrite (take_while_app _ rest post Hall).
    rewrite (eqb_empty_false _ (app_not_empty _ _ Hne)).
    reflexivity.
  - rewrite (startsWith_app "https://").
    change 8 with (String.length "https://"). rewrite drop_app.
    rewrite (take_while_app _ rest post Hall).
    rewrite (eqb_empty_false _ (app_not_empty _ _ Hne)).
    reflexivity.
Qed.

(** X6. What [extractUrl] returns is the empty string or a string without
    white space that begins with "http://" or "https://"; and extracting
    from the result gives the result again. *)
Theorem X6_extractUrl_shape (m : string) :
  (Chat.extractUrl m = ""
   \/ ((Js.startsWith "http://" (Chat.extractUrl m) = true
        \/ Js.startsWith "https://" (Chat.extractUrl m) = true)
       /\ UrlSpec.all_chars UrlSpec.non_space (Chat.extractUrl m) = true))
  /\ Chat.extractUrl (Chat.extractUrl m) = Chat.extractUrl m.
Proof.
  destruct (Chat.first_url m) as [u|] eqn:H.
  - assert (Hu : Chat.extractUrl m = u) by (unfold Chat.extractUrl; now rewrite H).
    rewrite Hu.
    destruct (first_url_some m u H) as [Hshape _].
    split.
    + right. destruct Hshape as (rest & Hr & _ & Hall). split.
      * destruct Hr as [-> | ->]; [left | right]; apply startsWith_app.
      * destruct Hr as [-> | ->]; rewrite all_chars_app, Hall; reflexivity.
    + unfold Chat.extractUrl. rewrite first_url_eq.
      pose proof (url_at_exact u "" Hshape) as E. simpl in E.
      rewrite !string_app_empty_r in E. now rewrite E.
  - assert (Hu : Chat.extractUrl m = "") by (unfold Chat.extractUrl; now rewrite H).
    rewrite Hu. split; [now left | reflexivity].
Qed.

Lemma startsWith_ci_inv (p s : string) :
  Js.startsWith_ci p s = true ->
  exists lit, s = lit +:+ Js.drop (String.length p) s
              /\ String.length lit = String.length p
              /\ Js.startsWith_ci p lit = true.
Proof.
  revert s. induction p as [|a p IH]; intros s H; simpl in *.
  - exists "". repeat split.
  - destruct s as [|b s]; [discriminate|].
    destruct (Ascii.eqb (Js.ascii_lower a) (Js.ascii_lower b)) eqn:E; [|discriminate].
    destruct (IH s H) as (lit & Hs & Hl & Hc).
    exists (String b lit). simpl. rewrite E. repeat split; auto.
    now rewrite <- Hs.
Qed.

(** A string is the longest prefix of its characters in [p], followed by a
    rest that does not begin with a character in [p]. *)
Lemma take_while_split (p : ascii -> bool) (s : string) :
  exists t, s = Js.take_while p s +:+ t /\ Js.take_while p t = "".
Proof.
  induction s as [|c s (t & Hs & Ht)]; simpl.
  - exists "". split; reflexivity.
  - destruct (p c) eqn:E; simpl.
    + exists t. split; [now rewrite <- Hs | exact Ht].
    + exists (String c s). split; [reflexivity|]. simpl. now rewrite E.
Qed.

Lemma app_name_at_sound (s w : string) :
  Chat.app_name_at s = Some w ->
  exists lit post,
    s = lit +:+ w +:+ post
    /\ String.length lit = 9
    /\ Js.startsWith_ci "app like " lit = true
    /\ w <> ""
    /\ UrlSpec.all_chars Js.is_word w = true
    /\ Js.take_while Js.is_word post = "".
Proof.
  unfold Chat.app_name_at.
  destruct (Js.startsWith_ci "app like " s) eqn:Hs; [|discriminate].
  destruct (String.eqb _ "") eqn:Hw; [discriminate|].
  intros [= <-]. apply String.eqb_neq in Hw.
  destruct (startsWith_ci_inv _ _ Hs) as (lit & Hlit & Hlen & Hci).
  destruct (take_while_split Js.is_word (Js.drop 9 s)) as (post & Hd & Hp).
  exists lit, post. split.
  - rewrite Hlit at 1. f_equal. exact Hd.
  - repeat split; auto. apply take_while_all.
Qed.

Lemma first_app_name_sound (m w : string) :
  Chat.first_app_name m = Some w ->
  exists pre lit post,
    m = pre +:+ lit +:+ w +:+ post
    /\ String.length lit = 9
    /\ Js.startsWith_ci "app like " lit = true
    /\ w <> ""
    /\ UrlSpec.all_chars Js.is_word w = true
    /\ Js.take_while Js.is_word post = "".
Proof.
  induction m as [|c m IH]; intros H.
  - discriminate.
  - assert (E : Chat.first_app_name (String c m) =
                match Chat.app_name_at (String c m) with
                | Some w0 => Some w0
                | None => Chat.first_app_name m
                end) by reflexivity.
    rewrite E in H. clear E.
    destruct (Chat.app_name_at (String c m)) as [w0|] eqn:Hat.
    + injection H as ->.
      destruct (app_name_at_sound _ _ Hat) as (lit & post & Hm & Hrest).
      exists "", lit, post. split; [exact Hm | exact Hrest].
    + destruct (IH H) as (pre & lit & post & Hm & Hrest).
      exists (String c pre), lit, post. split; [simpl; now rewrite Hm | exact Hrest].
Qed.

(** X7. The app name is never empty: it is the placeholder "the requested
    application", or a non-empty run of word characters that stands in the
    message right after "app like " (in any mix of upper and lower case) and
    is not followed by a further word character. *)
Theorem X7_extractAppName_shape (m : string) :
  Chat.extractAppName m <> ""
  /\ (Chat.extractAppName m = "the requested application"
      \/ exists pre lit post,
           m = pre +:+ lit +:+ Chat.extractAppName m +:+ post
           /\ String.length lit = 9
           /\ Js.startsWith_ci "app like " lit = true
           /\ UrlSpec.all_chars Js.is_word (Chat.extractAppName m) = true
           /\ Js.take_while Js.is_word post = "").
Proof.
  unfold Chat.extractAppName.
  destruct (Chat.first_app_name m) as [w|] eqn:H.
  - destruct (first_app_name_sound m w H) as (pre & lit & post & Hm & Hl & Hc & Hne & Hw & Hp).
    split; [exact Hne|]. right. exists pre, lit, post. auto.
  - split; [discriminate | now left].
Qed.

(** X8. When the model a request names is neither an entry of the registry
    nor the name of a property every object inherits, so that the read
    [MODEL_CONFIGS[model]] gives nothing, the reply is built with the name
    and provider of the entry [venice], while its [model] field still names
    the model of the request. *)
Theorem X8_unknown_model_falls_back
    (cfg : Chat.Registry) (r : Chat.Request) (k : string) (reply : Chat.Reply) :
  Chat.model r = Some k ->
  k <> "" ->
  ~ In k object_prototype_keys ->
  Chat.lookup cfg k = None ->
  Chat.POST cfg (Some r) = Chat.Json200 reply ->
  Chat.reply_model reply = k
  /\ Chat.modelUsed (Chat.metadata reply) = Some (ModelConfig.name (Chat.venice cfg))
  /\ Chat.provider (Chat.metadata reply) = Some (ModelConfig.provider (Chat.venice cfg)).
Proof.
  intros Hk Hne _ Hl. unfold Chat.POST, Chat.selectedModel.
  destruct (Chat.respond r) as [e | [text meta]]; [discriminate|].
  intros [= <-]. simpl. rewrite Hk, Hl. simpl.
  rewrite (eqb_empty_false k Hne). repeat split.
Qed.

Lemma X8_unknown_model_falls_back_witness :
  exists reply,
    Chat.POST sample_registry
      (Some {| Chat.message := Some "debug my app"; Chat.model := Some "llama-9";
               Chat.history := []; Chat.files := None |})
    = Chat.Json200 reply
    /\ Chat.reply_model reply = "llama-9"
    /\ Chat.modelUsed (Chat.metadata reply) = Some "Venice AI"
    /\ Chat.provider (Chat.metadata reply) = Some "Venice".
Proof.
  eexists. split; [reflexivity|].
  assert (Hk : ~ In "llama-9" object_prototype_keys).
  { intros H. simpl in H.
    repeat (destruct H as [H | H]; [discriminate H|]). exact H. }
  apply (X8_unknown_model_falls_back sample_registry
           {| Chat.message := Some "debug my app"; Chat.model := Some "llama-9";
              Chat.history := []; Chat.files := None |} "llama-9" _
           eq_refl ltac:(discriminate) Hk eq_refl eq_refl).
Defined.

(** ** File upload and removal *)

Lemma extract_returns (file : Upload.RawFile) (st st' : Upload.State) (d : File.t) :
  Upload.extract file st = Return d st' ->
  File.name d = Upload.name file
  /\ File.type d = Upload.type file
  /\ File.size d = Upload.size file
  /\ (is_Some (File.url d) <-> Js.startsWith "image/" (Upload.type file) = true)
  /\ (Js.startsWith "image/" (Upload.type file) = true -> File.content d = None)
  /\ (Js.startsWith "image/" (Upload.type file) = false ->
      File.content d = Upload.text file)
  /\ Upload.uploadedFiles st' = Upload.uploadedFiles st
  /\ Upload.objectUrls st <= Upload.objectUrls st'.
Proof.
  unfold Upload.extract, Upload.createObjectURL, Upload.read_text, bind, try_catch,
    ret, throw.
  destruct (Js.startsWith "image/" (Upload.type file)) eqn:Hi.
  - intros [= <- <-]. simpl. repeat split; eauto; try discriminate.
  - destruct (_ || _); destruct (Upload.text file) as [c|]; try discriminate;
      intros [= <- <-]; simpl; repeat split; auto;
      try (intros [? ?]; discriminate); discriminate.
Qed.

Lemma extract_throws (file : Upload.RawFile) (st st' : Upload.State) (e : Exn) :
  Upload.extract file st = Throw e st' ->
  e = NotReadableError /\ st' = st
  /\ unguarded_read file = true /\ Upload.text file = None.
Proof.
  unfold Upload.extract, Upload.createObjectURL, Upload.read_text, bind, try_catch,
    ret, throw, unguarded_read.
  destruct (Js.startsWith "image/" (Upload.type file)); [discriminate|].
  destruct (_ || _); destruct (Upload.text file); try discriminate.
  intros [= <- <-]. repeat split.
Qed.

Lemma extract_total (file : Upload.RawFile) (st : Upload.State) :
  (unguarded_read file = true -> Upload.text file <> None) ->
  exists d st', Upload.extract file st = Return d st'.
Proof.
  intros H. destruct (Upload.extract file st) as [d st'|e st'] eqn:E; eauto.
  apply extract_throws in E as (_ & _ & Hu & Ht). now destruct (H Hu).
Qed.

Lemma extract_all_returns (fs : list Upload.RawFile) (st st' : Upload.State)
    (ds : list File.t) :
  Upload.extract_all fs st = Return ds st' ->
  map File.name ds = map Upload.name fs
  /\ map File.type ds = map Upload.type fs
  /\ map File.size ds = map Upload.size fs
  /\ Upload.uploadedFiles st' = Upload.uploadedFiles st
  /\ Upload.objectUrls st <= Upload.objectUrls st'.
Proof.
  revert st ds. induction fs as [|f fs IH]; intros st ds; simpl.
  - intros [= <- <-]. repeat split. lia.
  - unfold bind, ret.
    destruct (Upload.extract f st) as [d s1|] eqn:E1; [|discriminate].
    destruct (Upload.extract_all fs s1) as [ds1 s2|] eqn:E2; [|discriminate].
    intros [= <- <-].
    apply extract_returns in E1 as (Hn & Ht & Hs & _ & _ & _ & Hu & Ho).
    destruct (IH _ _ E2) as (Hn' & Ht' & Hs' & Hu' & Ho').
    simpl. rewrite Hn, Ht, Hs, Hn', Ht', Hs'. repeat split; [congruence | lia].
Qed.

Lemma extract_all_throws (fs : list Upload.RawFile) (st st' : Upload.State) (e : Exn) :
  Upload.extract_all fs st = Throw e st' ->
  e = NotReadableError
  /\ Upload.uploadedFiles st' = Upload.uploadedFiles st
  /\ Upload.objectUrls st <= Upload.objectUrls st'
  /\ exists f, In f fs /\ unguarded_read f = true /\ Upload.text f = None.
Proof.
  revert st. induction fs as [|f fs IH]; intros st; simpl.
  - discriminate.
  - unfold bind, ret.
    destruct (Upload.extract f st) as [d s1|e1 s1] eqn:E1.
    + destruct (Upload.extract_all fs s1) as [ds1 s2|e2 s2] eqn:E2; [discriminate|].
      intros [= <- <-].
      apply extract_returns in E1 as (_ & _ & _ & _ & _ & _ & Hu & Ho).
      destruct (IH _ E2) as (-> & Hu' & Ho' & g & Hg & Hr).
      repeat split; [congruence | lia |]. exists g. split; [now right | exact Hr].
    + intros [= <- <-].
      apply extract_throws in E1 as (-> & -> & Hu & Ht).
      repeat split; [lia|]. exists f. split; [now left | auto].
Qed.

Lemma extract_all_total (fs : list Upload.RawFile) (st : Upload.State) :
  Forall (fun f => unguarded_read f = true -> Upload.text f <> None) fs ->
  exists ds st', Upload.extract_all fs st = Return ds st'.
Proof.
  intros H. destruct (Upload.extract_all fs st) as [ds st'|e st'] eqn:E; eauto.
  apply extract_all_throws in E as (_ & _ & _ & f & Hin & Hu & Ht).
  rewrite Forall_forall in H. apply list_elem_of_In in Hin.
  now destruct (H f Hin Hu).
Qed.

(** X9. A descriptor that extraction returns has the name, type and size of
    the file; it carries an object URL exactly when the file has an image
    type, and then no content; for any other file its content is the text
    of the file, absent when the text could not be read.  It never carries
    both. *)
Theorem X9_descriptor_shape
    (file : Upload.RawFile) (st st' : Upload.State) (d : File.t) :
  Upload.extract file st = Return d st' ->
  File.name d = Upload.name file
  /\ File.type d = Upload.type file
  /\ File.size d = Upload.size file
  /\ (is_Some (File.url d) <-> Js.startsWith "image/" (Upload.type file) = true)
  /\ (Js.startsWith "image/" (Upload.type file) = false ->
      File.content d = Upload.text file)
  /\ (File.content d = None \/ File.url d = None).
Proof.
  intros H. apply extract_returns in H as (Hn & Ht & Hs & Hu & Hc & Hc' & _ & _).
  repeat split; auto; try apply Hu.
  destruct (Js.startsWith "image/" (Upload.type file)) eqn:Hi.
  - left. now apply Hc.
  - right. destruct (File.url d) eqn:E; [|reflexivity].
    assert (Hs' : is_Some (Some s)) by eauto.
    apply Hu in Hs'. discriminate.
Qed.

Lemma X9_descriptor_shape_witness :
  File.name (File.mk "logo.png" "image/png" 20%N None (Some "blob:0")) = "logo.png"
  /\ File.type (File.mk "logo.png" "image/png" 20%N None (Some "blob:0")) = "image/png"
  /\ File.size (File.mk "logo.png" "image/png" 20%N None (Some "blob:0")) = 20%N
  /\ (is_Some (File.url (File.mk "logo.png" "image/png" 20%N None (Some "blob:0")))
      <-> Js.startsWith "image/" "image/png" = true)
  /\ (Js.startsWith "image/" "image/png" = false ->
      File.content (File.mk "logo.png" "image/png" 20%N None (Some "blob:0")) = None)
  /\ (File.content (File.mk "logo.png" "image/png" 20%N None (Some "blob:0")) = None
      \/ File.url (File.mk "logo.png" "image/png" 20%N None (Some "blob:0")) = None).
Proof.
  exact (X9_descriptor_shape logo_png no_uploads
           {| Upload.uploadedFiles := []; Upload.objectUrls := 1 |}
           (File.mk "logo.png" "image/png" 20%N None (Some "blob:0")) eq_refl).
Defined.

(** X10. When every zip archive among the chosen files can be read, the
    upload returns and appends one descriptor per file to [uploadedFiles],
    in the order of the files and with their names, types and sizes; what
    was uploaded before stays in place. *)
Theorem X10_upload_appends_in_order
    (fs : list Upload.RawFile) (st : Upload.State) :
  Forall (fun f => unguarded_read f = true -> Upload.text f <> None) fs ->
  exists ds st',
    Upload.handleFileUpload (Some fs) st = Return tt st'
    /\ Upload.uploadedFiles st' = Upload.uploadedFiles st ++ ds
    /\ map File.name ds = map Upload.name fs
    /\ map File.type ds = map Upload.type fs
    /\ map File.size ds = map Upload.size fs.
Proof.
  intros H. destruct (extract_all_total fs st H) as (ds & s1 & E).
  destruct (extract_all_returns _ _ _ _ E) as (Hn & Ht & Hs & Hu & _).
  exists ds. eexists. unfold Upload.handleFileUpload, bind, modify. rewrite E.
  split; [reflexivity|]. simpl. rewrite Hu. auto.
Qed.

Lemma X10_upload_appends_in_order_witness :
  exists ds st',
    Upload.handleFileUpload (Some [logo_png; unreadable_notes; readable_notes]) no_uploads
    = Return tt st'
    /\ Upload.uploadedFiles st' = [] ++ ds
    /\ map File.name ds = ["logo.png"; "notes.txt"; "notes.txt"]
    /\ map File.type ds = ["image/png"; "text/plain"; "text/plain"]
    /\ map File.size ds = [20%N; 5%N; 5%N].
Proof.
  apply (X10_upload_appends_in_order [logo_png; unreadable_notes; readable_notes]
           no_uploads).
  repeat constructor; intros H; vm_compute in H; discriminate H.
Defined.

(** X11. An upload raises only because a zip archive among the files could
    not be read; it then adds no descriptor at all, while the object URLs
    created for the images before the archive stay allocated. *)
Theorem X11_failed_upload_adds_nothing
    (files : option (list Upload.RawFile)) (st st' : Upload.State) (e : Exn) :
  Upload.handleFileUpload files st = Throw e st' ->
  e = NotReadableError
  /\ Upload.uploadedFiles st' = Upload.uploadedFiles st
  /\ Upload.objectUrls st <= Upload.objectUrls st'
  /\ exists fs f, files = Some fs /\ In f fs
                  /\ unguarded_read f = true /\ Upload.text f = None.
Proof.
  destruct files as [fs|]; [|discriminate].
  unfold Upload.handleFileUpload, bind, modify.
  destruct (Upload.extract_all fs st) as [ds s1|e1 s1] eqn:E; [discriminate|].
  intros [= <- <-].
  destruct (extract_all_throws _ _ _ _ E) as (-> & Hu & Ho & f & Hf).
  repeat split; auto. exists fs, f. tauto.
Qed.

Lemma X11_failed_upload_adds_nothing_witness :
  NotReadableError = NotReadableError
  /\ Upload.uploadedFiles {| Upload.uploadedFiles := []; Upload.objectUrls := 1 |}
     = Upload.uploadedFiles no_uploads
  /\ Upload.objectUrls no_uploads <= 1
  /\ exists fs f, Some [logo_png; unreadable_zip] = Some fs /\ In f fs
                  /\ unguarded_read f = true /\ Upload.text f = None.
Proof.
  exact (X11_failed_upload_adds_nothing (Some [logo_png; unreadable_zip]) no_uploads
           {| Upload.uploadedFiles := []; Upload.objectUrls := 1 |}
           NotReadableError eq_refl).
Defined.

(** Extraction does not look at the descriptors uploaded so far. *)
Lemma extract_frame (file : Upload.RawFile) (u u' : list File.t) (n : nat)
    (d : File.t) (s : Upload.State) :
  Upload.extract file {| Upload.uploadedFiles := u; Upload.objectUrls := n |}
  = Return d s ->
  Upload.extract file {| Upload.uploadedFiles := u'; Upload.objectUrls := n |}
  = Return d {| Upload.uploadedFiles := u'; Upload.objectUrls := Upload.objectUrls s |}
  /\ Upload.uploadedFiles s = u.
Proof.
  unfold Upload.extract, Upload.createObjectURL, Upload.read_text, bind, try_catch,
    ret, throw.
  destruct (Js.startsWith "image/" (Upload.type file)).
  - intros [= <- <-]. split; reflexivity.
  - destruct (_ || _); destruct (Upload.text file); try discriminate;
      intros [= <- <-]; split; reflexivity.
Qed.

Lemma extract_all_frame (fs : list Upload.RawFile) (u u' : list File.t) (n : nat)
    (ds : list File.t) (s : Upload.State) :
  Upload.extract_all fs {| Upload.uploadedFiles := u; Upload.objectUrls := n |}
  = Return ds s ->
  Upload.extract_all fs {| Upload.uploadedFiles := u'; Upload.objectUrls := n |}
  = Return ds {| Upload.uploadedFiles := u'; Upload.objectUrls := Upload.objectUrls s |}
  /\ Upload.uploadedFiles s = u.
Proof.
  revert n ds s. induction fs as [|f fs IH]; intros n ds s; simpl.
  - intros [= <- <-]. split; reflexivity.
  - unfold bind, ret.
    destruct (Upload.extract f _) as [d s1|] eqn:E1; [|discriminate].
    destruct (Upload.extract_all fs s1) as [ds1 s2|] eqn:E2; [|discriminate].
    intros [= <- <-].
    destruct (extract_frame _ _ u' _ _ _ E1) as [E1' Hu1]. rewrite E1'.
    destruct s1 as [u1 n1]; simpl in *; subst u1.
    destruct (IH _ _ _ E2) as [E2' Hu2]. rewrite E2'. split; [reflexivity | exact Hu2].
Qed.

Lemma extract_all_app (a b : list Upload.RawFile) (st : Upload.State) :
  Upload.extract_all (a ++ b) st =
  match Upload.extract_all a st with
  | Return da s1 =>
      match Upload.extract_all b s1 with
      | Return db s2 => Return (da ++ db) s2
      | Throw e s2 => Throw e s2
      end
  | Throw e s1 => Throw e s1
  end.
Proof.
  revert st. induction a as [|f a IH]; intros st; simpl.
  - unfold ret. destruct (Upload.extract_all b st); reflexivity.
  - unfold bind, ret. destruct (Upload.extract f st) as [d s1|]; [|reflexivity].
    rewrite IH. destruct (Upload.extract_all a s1) as [da s2|]; [|reflexivity].
    destruct (Upload.extract_all b s2); reflexivity.
Qed.

(** X12. Choosing the files in one go or in two goes comes to the same,
    as long as the upload returns: an upload of [a ++ b] returns a state
    exactly when the upload of [a] followed by the upload of [b] returns
    it. *)
Theorem X12_upload_in_two_goes
    (a b : list Upload.RawFile) (st st' : Upload.State) :
  Upload.handleFileUpload (Some (a ++ b)) st = Return tt st'
  <-> (Upload.handleFileUpload (Some a) ;;; Upload.handleFileUpload (Some b)) st
      = Return tt st'.
Proof.
  destruct st as [u n].
  unfold Upload.handleFileUpload, bind, modify. rewrite extract_all_app.
  destruct (Upload.extract_all a _) as [da s1|e s1] eqn:Ea; [|split; discriminate].
  destruct (extract_all_frame _ _ u _ _ _ Ea) as [_ Hu1].
  destruct s1 as [u1 n1]; simpl in *; subst u1.
  split.
  - destruct (Upload.extract_all b _) as [db s2|] eqn:Eb; [|discriminate].
    intros [= <-].
    destruct (extract_all_frame _ _ (u ++ da) _ _ _ Eb) as [Eb' Hu2].
    rewrite Eb'. simpl. rewrite Hu2, app_assoc. reflexivity.
  - destruct (Upload.extract_all b {| Upload.uploadedFiles := u ++ da;
                                     Upload.objectUrls := n1 |})
      as [db s2|] eqn:Eb; [|discriminate].
    intros [= <-].
    destruct (extract_all_frame _ _ u _ _ _ Eb) as [Eb' Hu2].
    rewrite Eb'. simpl. rewrite Hu2, app_assoc. reflexivity.
Qed.

Lemma filter_index_keeps_all {A : Type} (keep : nat -> bool) (k : nat) (l : list A) :
  (forall i, k <= i -> keep i = true) -> Ide.filter_index keep k l = l.
Proof.
  revert k. induction l as [|x l IH]; intros k H; simpl; [reflexivity|].
  rewrite (H k) by lia. f_equal. apply IH. intros i Hi. apply H. lia.
Qed.

Lemma filter_index_removes {A : Type} (k j : nat) (l : list A) :
  Ide.filter_index (fun i => negb (Nat.eqb i (k + j))) k l = take j l ++ drop (S j) l.
Proof.
  revert k j. induction l as [|x l IH]; intros k j; simpl.
  - now destruct j.
  - destruct j as [|j]; simpl.
    + rewrite Nat.add_0_r, Nat.eqb_refl. simpl.
      rewrite drop_0. apply filter_index_keeps_all.
      intros i Hi. apply negb_true_iff, Nat.eqb_neq. lia.
    + assert (E : Nat.eqb k (k + S j) = false) by (apply Nat.eqb_neq; lia).
      rewrite E. simpl. f_equal.
      replace (k + S j) with (S k + j) by lia. apply IH.
Qed.

(** X13. [removeFile(index)] takes the descriptor at that index out of
    [uploadedFiles] and keeps every other one in its order; an index at or
    beyond the end removes nothing. *)
Theorem X13_removeFile (index : nat) (st : Upload.State) :
  exists st',
    Ide.removeFile index st = Return tt st'
    /\ Upload.uploadedFiles st'
       = take index (Upload.uploadedFiles st) ++ drop (S index) (Upload.uploadedFiles st)
    /\ (length (Upload.uploadedFiles st) <= index ->
        Upload.uploadedFiles st' = Upload.uploadedFiles st)
    /\ (index < length (Upload.uploadedFiles st) ->
        S (length (Upload.uploadedFiles st')) = length (Upload.uploadedFiles st)).
Proof.
  eexists. split; [reflexivity|]. simpl.
  pose proof (filter_index_removes 0 index (Upload.uploadedFiles st)) as E.
  simpl in E. rewrite E. split; [reflexivity|]. split.
  - intros H. rewrite take_ge, drop_ge by lia. apply app_nil_r.
  - intros H. rewrite length_app, length_take, length_drop. lia.
Qed.

(** X14. Removing the index at which a file has just been uploaded gives
    back the list of descriptors as it was before the upload. *)
Theorem X14_upload_then_remove
    (file : Upload.RawFile) (st s1 : Upload.State) :
  Upload.handleFileUpload (Some [file]) st = Return tt s1 ->
  exists s2,
    Ide.removeFile (length (Upload.uploadedFiles st)) s1 = Return tt s2
    /\ Upload.uploadedFiles s2 = Upload.uploadedFiles st.
Proof.
  unfold Upload.handleFileUpload, bind, modify. simpl. unfold bind, ret.
  destruct (Upload.extract file st) as [d s|] eqn:E; [|discriminate].
  intros [= <-]. eexists. split; [reflexivity|]. simpl.
  apply extract_returns in E as (_ & _ & _ & _ & _ & _ & Hu & _). rewrite Hu.
  pose proof (filter_index_removes 0 (length (Upload.uploadedFiles st))
                (Upload.uploadedFiles st ++ [d])) as F.
  simpl in F. rewrite F.
  rewrite take_app_length, drop_ge by (rewrite length_app; simpl; lia).
  apply app_nil_r.
Qed.

Lemma X14_upload_then_remove_witness :
  exists s2,
    Ide.removeFile 0
      {| Upload.uploadedFiles := [File.mk "notes.txt" "text/plain" 5%N (Some "hello") None];
         Upload.objectUrls := 0 |}
    = Return tt s2
    /\ Upload.uploadedFiles s2 = [].
Proof.
  exact (X14_upload_then_remove readable_notes no_uploads
           {| Upload.uploadedFiles := [File.mk "notes.txt" "text/plain" 5%N (Some "hello") None];
              Upload.objectUrls := 0 |} eq_refl).
Defined.

(** ** The chat form *)

Lemma trimStart_blank (s : string) :
  UrlSpec.all_chars Js.is_space s = true -> Ide.trimStart s = "".
Proof.
  induction s as [|c s IH]; simpl; [reflexivity|].
  intros H. apply andb_true_iff in H as [Hc Hs]. rewrite Hc. now apply IH.
Qed.

Lemma trimStart_head (s : string) :
  UrlSpec.all_chars Js.is_space s = false ->
  exists c rest, Ide.trimStart s = String c rest /\ Js.is_space c = false.
Proof.
  induction s as [|c s IH]; simpl; [discriminate|].
  destruct (Js.is_space c) eqn:Hc; simpl.
  - exact IH.
  - intros _. exists c, s. split; [reflexivity | exact Hc].
Qed.

(** [trim] gives the empty string exactly on strings of white space. *)
Lemma trim_empty_iff (s : string) :
  Ide.trim s = "" <-> UrlSpec.all_chars Js.is_space s = true.
Proof.
  unfold Ide.trim. split.
  - intros H. destruct (UrlSpec.all_chars Js.is_space s) eqn:E; [reflexivity|].
    destruct (trimStart_head s E) as (c & rest & Ht & Hc).
    rewrite Ht in H. simpl in H. rewrite Hc in H. discriminate.
  - intros H. now rewrite (trimStart_blank s H).
Qed.

Lemma or_else_not_empty (o : option string) (d : string) :
  d <> "" -> Js.or_else o d <> "".
Proof.
  intros Hd. destruct o as [s|]; simpl; [|exact Hd].
  destruct (String.eqb s "") eqn:E; [exact Hd | now apply String.eqb_neq].
Qed.

(** The test at the head of [handleSubmit]. *)
Lemma submit_guard (s : Ide.State) :
  (negb (Js.truthy (Some (Ide.trim (Ide.input s))))
   && Nat.eqb (length (Ide.uploadedFiles s)) 0) || Ide.isLoading s = true
  <-> (UrlSpec.all_chars Js.is_space (Ide.input s) = true /\ Ide.uploadedFiles s = [])
      \/ Ide.isLoading s = true.
Proof.
  rewrite orb_true_iff, andb_true_iff. simpl. rewrite negb_involutive.
  rewrite String.eqb_eq, trim_empty_iff, Nat.eqb_eq.
  split; intros [[H1 H2] | H]; auto; left; split; auto.
  - now destruct (Ide.uploadedFiles s).
  - now rewrite H2.
Qed.

(** X15. With only white space typed in and no file uploaded, or while a
    turn is loading, [handleSubmit] does nothing: nothing is sent and the
    state stays as it is; the same holds for every key press handled by
    [handleKeyDown]. *)
Theorem X15_blank_submit_does_nothing
    (fetch : Chat.Request -> Ide.Fetched) (t1 t2 t3 t4 : N) (s : Ide.State) :
  (UrlSpec.all_chars Js.is_space (Ide.input s) = true /\ Ide.uploadedFiles s = [])
  \/ Ide.isLoading s = true ->
  Ide.handleSubmit fetch t1 t2 t3 t4 s = Return tt s
  /\ forall key shift, Ide.handleKeyDown fetch key shift t1 t2 t3 t4 s = Return tt s.
Proof.
  intros H. apply submit_guard in H.
  assert (E : Ide.handleSubmit fetch t1 t2 t3 t4 s = Return tt s).
  { unfold Ide.handleSubmit, bind, get. now rewrite H. }
  split; [exact E|]. intros key shift. unfold Ide.handleKeyDown.
  destruct (String.eqb key "Enter" && negb shift); [exact E | reflexivity].
Qed.

Lemma X15_blank_submit_does_nothing_witness :
  Ide.handleSubmit no_network 1%N 2%N 3%N 4%N blank_form = Return tt blank_form
  /\ forall key shift,
       Ide.handleKeyDown no_network key shift 1%N 2%N 3%N 4%N blank_form
       = Return tt blank_form.
Proof.
  apply (X15_blank_submit_does_nothing no_network 1%N 2%N 3%N 4%N blank_form).
  left. split; reflexivity.
Defined.

(** One run of [handleSubmit] past its test. *)
Lemma handleSubmit_outcome
    (fetch : Chat.Request -> Ide.Fetched) (t1 t2 t3 t4 : N) (s : Ide.State) :
  Ide.isLoading s = false ->
  UrlSpec.all_chars Js.is_space (Ide.input s) = false \/ Ide.uploadedFiles s <> [] ->
  let u := Chat.Message.mk (pretty t1) Chat.user
             (Js.or_else (Some (Ide.trim (Ide.input s))) "Uploaded files for analysis")
             t2 None
             (if Nat.ltb 0 (length (Ide.uploadedFiles s))
              then Some (Ide.uploadedFiles s) else None) in
  let request := {| Chat.message := Some (Chat.Message.content u);
                    Chat.model := Some (Ide.selectedModel s);
                    Chat.history := Ide.messages s;
                    Chat.files := Chat.Message.files u |} in
  exists s' a,
    Ide.handleSubmit fetch t1 t2 t3 t4 s = Return tt s'
    /\ Ide.messages s' = Ide.messages s ++ [u; a]
    /\ Chat.Message.id a = pretty (t3 + 1)%N
    /\ Chat.Message.type a = Chat.assistant
    /\ Ide.input s' = "" /\ Ide.uploadedFiles s' = [] /\ Ide.isLoading s' = false
    /\ Ide.selectedModel s' = Ide.selectedModel s
    /\ match fetch request with
       | Ide.JsonData d =>
           Chat.Message.content a
           = Js.or_else (Ide.response d)
               "I apologize, but I encountered an error processing your request. Please try again."
           /\ Chat.Message.metadata a = Ide.metadata d
           /\ if Js.truthy (Ide.code d)
              then Ide.activeTab s' = "editor"
                   /\ Ide.codeContent s' = Js.or_else (Ide.code d) ""
                   /\ Ide.fileName s' = Js.or_else (Ide.codeFileName d) "app.tsx"
              else Ide.activeTab s' = Ide.activeTab s
                   /\ Ide.codeContent s' = Ide.codeContent s
                   /\ Ide.fileName s' = Ide.fileName s
       | _ =>
           Chat.Message.content a
           = "I encountered an error processing your request. Please try again."
           /\ Chat.Message.metadata a = None
           /\ Ide.activeTab s' = Ide.activeTab s
           /\ Ide.codeContent s' = Ide.codeContent s
           /\ Ide.fileName s' = Ide.fileName s
       end.
Proof.
  intros Hl Hin u request.
  assert (G : (negb (Js.truthy (Some (Ide.trim (Ide.input s))))
               && Nat.eqb (length (Ide.uploadedFiles s)) 0) || Ide.isLoading s = false).
  { destruct (_ || _) eqn:E; [|reflexivity].
    apply submit_guard in E as [[Hb He] | Hl']; [|congruence].
    destruct Hin as [Hin | Hin]; congruence. }
  unfold Ide.handleSubmit, bind, get. rewrite G.
  fold u. fold request.
  unfold try_catch, Ide.fetch_json, Ide.setMessages, Ide.setInput,
    Ide.setUploadedFiles, Ide.setIsLoading, Ide.openInEditor, modify, ret, throw, bind.
  simpl.
  destruct (fetch request) as [| | |d]; simpl;
    try (eexists; eexists; split; [reflexivity|]; simpl;
         rewrite <- app_assoc; repeat split; reflexivity).
  destruct (Js.truthy (Ide.code d)); simpl;
    (eexists; eexists; split; [reflexivity|]; simpl;
     rewrite <- app_assoc; repeat split; reflexivity).
Qed.

(** X16. A submit that passes the test at its head always ends, whatever
    the transport does, with exactly two messages added after those that
    were there: the user's, never empty, with the uploaded files if there
    are any, and one of the assistant, never empty either; the input and
    the uploads are cleared and the form is no longer loading. *)
Theorem X16_submit_adds_two_messages
    (fetch : Chat.Request -> Ide.Fetched) (t1 t2 t3 t4 : N) (s : Ide.State) :
  Ide.isLoading s = false ->
  UrlSpec.all_chars Js.is_space (Ide.input s) = false \/ Ide.uploadedFiles s <> [] ->
  exists s' u a,
    Ide.handleSubmit fetch t1 t2 t3 t4 s = Return tt s'
    /\ Ide.messages s' = Ide.messages s ++ [u; a]
    /\ Chat.Message.type u = Chat.user
    /\ Chat.Message.content u <> ""
    /\ Chat.Message.files u
       = match Ide.uploadedFiles s with [] => None | _ :: _ => Some (Ide.uploadedFiles s) end
    /\ Chat.Message.type a = Chat.assistant
    /\ Chat.Message.content a <> ""
    /\ Ide.input s' = "" /\ Ide.uploadedFiles s' = [] /\ Ide.isLoading s' = false.
Proof.
  intros Hl Hin.
  destruct (handleSubmit_outcome fetch t1 t2 t3 t4 s Hl Hin)
    as (s' & a & Hrun & Hm & _ & Ha & Hi & Hu & Hl' & _ & Hf).
  eexists. eexists. exists a. split; [exact Hrun|]. split; [exact Hm|].
  cbn [Chat.Message.type Chat.Message.content Chat.Message.files].
  split; [reflexivity|].
  split; [apply or_else_not_empty; discriminate|].
  split; [now destruct (Ide.uploadedFiles s)|].
  split; [exact Ha|]. split; [|auto].
  destruct (fetch _) as [| | |d]; destruct Hf as [-> _]; try discriminate.
  apply or_else_not_empty. discriminate.
Qed.

Lemma X16_submit_adds_two_messages_witness :
  exists s' u a,
    Ide.handleSubmit no_network 10%N 11%N 12%N 13%N typing = Return tt s'
    /\ Ide.messages s' = Ide.messages typing ++ [u; a]
    /\ Chat.Message.type u = Chat.user
    /\ Chat.Message.content u <> ""
    /\ Chat.Message.files u = None
    /\ Chat.Message.type a = Chat.assistant
    /\ Chat.Message.content a <> ""
    /\ Ide.input s' = "" /\ Ide.uploadedFiles s' = [] /\ Ide.isLoading s' = false.
Proof.
  apply (X16_submit_adds_two_messages no_network 10%N 11%N 12%N 13%N typing).
  - reflexivity.
  - left. reflexivity.
Defined.

Lemma respond_with_message (r : Chat.Request) (m : string) :
  Chat.message r = Some m ->
  exists text meta, Chat.respond r = inr (text, meta).
Proof.
  intros H. unfold Chat.respond. rewrite H.
  destruct (Chat.files r) as [[|f fs]|].
  - destruct (Chat.on_message m); eauto.
  - destruct (Chat.on_files (f :: fs)); eauto.
  - destruct (Chat.on_message m); eauto.
Qed.

(** X17. Against the chat endpoint of this repository a submit never meets
    the error answer: the request it sends always carries a message, the
    endpoint replies, and the assistant's message carries the text and the
    metadata of that reply.  The editor is never touched, since the
    metadata the endpoint builds has no code: the code shown, its file name
    and the active tab stay as they were. *)
Theorem X17_submit_against_the_endpoint
    (cfg : Chat.Registry) (text_of : Chat.Narrative -> string)
    (t1 t2 t3 t4 : N) (s : Ide.State) :
  (forall n, text_of n <> "") ->
  Ide.isLoading s = false ->
  UrlSpec.all_chars Js.is_space (Ide.input s) = false \/ Ide.uploadedFiles s <> [] ->
  exists s' u a reply,
    Ide.handleSubmit (Ide.endpoint cfg text_of) t1 t2 t3 t4 s = Return tt s'
    /\ Ide.messages s' = Ide.messages s ++ [u; a]
    /\ Chat.POST cfg (Some {| Chat.message := Some (Chat.Message.content u);
                              Chat.model := Some (Ide.selectedModel s);
                              Chat.history := Ide.messages s;
                              Chat.files := Chat.Message.files u |})
       = Chat.Json200 reply
    /\ Chat.Message.content a = text_of (Chat.response reply)
    /\ Chat.Message.metadata a = Some (Chat.metadata reply)
    /\ Ide.activeTab s' = Ide.activeTab s
    /\ Ide.codeContent s' = Ide.codeContent s
    /\ Ide.fileName s' = Ide.fileName s.
Proof.
  intros Htext Hl Hin.
  destruct (handleSubmit_outcome (Ide.endpoint cfg text_of) t1 t2 t3 t4 s Hl Hin)
    as (s' & a & Hrun & Hm & _ & _ & _ & _ & _ & _ & Hf).
  cbv zeta in Hf.
  match type of Hf with
  | match Ide.endpoint _ _ ?r with _ => _ end => set (request := r) in *
  end.
  destruct (respond_with_message request _ eq_refl) as (text & meta & Hresp).
  destruct (POST_type cfg request text meta Hresp) as (reply & HP & _).
  unfold Ide.endpoint in Hf. rewrite HP in Hf. simpl in Hf.
  destruct Hf as (Hc & Hmeta & Ht & Hcode & Hfile).
  eexists. eexists. exists a, reply.
  split; [exact Hrun|]. split; [exact Hm|]. split; [exact HP|].
  split; [|auto].
  rewrite Hc. destruct (String.eqb _ "") eqn:E; [|reflexivity].
  apply String.eqb_eq in E. now destruct (Htext (Chat.response reply)).
Qed.

Lemma X17_submit_against_the_endpoint_witness :
  exists s' u a reply,
    Ide.handleSubmit (Ide.endpoint sample_registry opening_words) 10%N 11%N 12%N 13%N typing
    = Return tt s'
    /\ Ide.messages s' = Ide.messages typing ++ [u; a]
    /\ Chat.POST sample_registry
         (Some {| Chat.message := Some (Chat.Message.content u);
                  Chat.model := Some "venice";
                  Chat.history := Ide.messages typing;
                  Chat.files := Chat.Message.files u |})
       = Chat.Json200 reply
    /\ Chat.Message.content a = opening_words (Chat.response reply)
    /\ Chat.Message.metadata a = Some (Chat.metadata reply)
    /\ Ide.activeTab s' = "chat"
    /\ Ide.codeContent s' = "// Welcome to your custom IDE"
    /\ Ide.fileName s' = "app.tsx".
Proof.
  apply (X17_submit_against_the_endpoint sample_registry opening_words
           10%N 11%N 12%N 13%N typing).
  - intros n. destruct n; discriminate.
  - reflexivity.
  - left. reflexivity.
Defined.

(** ** Workspaces: saving, opening, and creating from files *)

Lemma setItem_state (k v : string) (b b' : Workspace.Browser) (u : unit) :
  Workspace.setItem k v b = Return u b' ->
  b' = {| Workspace.storage := <[k := v]> (Workspace.storage b);
          Workspace.quota := Workspace.quota b; Workspace.opened := Workspace.opened b |}
  /\ (Workspace.usage (<[k := v]> (Workspace.storage b)) <= Workspace.quota b)%N.
Proof.
  unfold Workspace.setItem. destruct (decide _) as [H|]; [|discriminate].
  intros [= _ <-]. split; [reflexivity | exact H].
Qed.

Lemma setItem_raises (k v : string) (b b' : Workspace.Browser) (e : Exn) :
  Workspace.setItem k v b = Throw e b' -> e = QuotaExceededError /\ b' = b.
Proof.
  unfold Workspace.setItem. destruct (decide _); [discriminate|].
  intros [= <- <-]. split; reflexivity.
Qed.

(** Writing again what the store holds changes nothing and always fits. *)
Lemma setItem_again (k v : string) (b : Workspace.Browser) :
  Workspace.storage b !! k = Some v ->
  (Workspace.usage (Workspace.storage b) <= Workspace.quota b)%N ->
  Workspace.setItem k v b = Return tt b.
Proof.
  intros Hk Hq. unfold Workspace.setItem. rewrite (insert_id _ _ _ Hk).
  destruct (decide _); [|contradiction]. now destruct b.
Qed.

(** X18. Whatever id a save is given (one, none, or the empty string),
    loading the id the save returned gives back the saved source and file
    name. *)
Theorem X18_load_by_returned_id
    (code fileName : string) (workspaceId : option string) (now : N)
    (b b' : Workspace.Browser) (id : string) :
  Workspace.saveCodeToWorkspace code fileName workspaceId now b = Return id b' ->
  Workspace.loadCodeFromWorkspace id b'
  = Return {| Workspace.loaded_code := Some code;
              Workspace.loaded_fileName := Some fileName |} b'.
Proof.
  intros H. pose proof (save_returns _ _ _ _ _ _ _ H) as (_ & S & _).
  rewrite load_eq, S. f_equal. f_equal.
  - rewrite lookup_insert_ne.
    2:{ intros E. symmetry in E. exact (code_key_not_fileName_key _ _ E). }
    apply lookup_insert_eq.
  - apply lookup_insert_eq.
Qed.

Lemma X18_load_by_returned_id_witness :
  exists b',
    Workspace.saveCodeToWorkspace "export default 1" "app.tsx" (Some "") 42%N roomy_browser
    = Return "workspace-42" b'
    /\ Workspace.loadCodeFromWorkspace "workspace-42" b'
       = Return {| Workspace.loaded_code := Some "export default 1";
                   Workspace.loaded_fileName := Some "app.tsx" |} b'.
Proof.
  eexists.
  assert (H : Workspace.saveCodeToWorkspace "export default 1" "app.tsx" (Some "") 42%N
                roomy_browser
              = Return "workspace-42"
                  {| Workspace.storage :=
                       <["workspace-42-fileName" := "app.tsx"]>
                         (<["workspace-42-code" := "export default 1"]> ∅);
                     Workspace.quota := 5000000%N; Workspace.opened := [] |})
    by (vm_compute; reflexivity).
  split; [exact H|].
  apply (X18_load_by_returned_id "export default 1" "app.tsx" (Some "") 42%N _ _ _ H).
Defined.

(** X19. A save is idempotent: repeating a save that returned, with the
    same arguments at the same clock reading, returns the same id, always
    fits, and leaves the browser exactly as the first save left it. *)
Theorem X19_save_is_idempotent
    (code fileName : string) (workspaceId : option string) (now : N)
    (b b' : Workspace.Browser) (id : string) :
  Workspace.saveCodeToWorkspace code fileName workspaceId now b = Return id b' ->
  Workspace.saveCodeToWorkspace code fileName workspaceId now b' = Return id b'.
Proof.
  unfold Workspace.saveCodeToWorkspace, bind, ret.
  set (i := Js.or_else workspaceId (Workspace.fresh_id now)).
  destruct (Workspace.setItem (i +:+ "-code") code b) as [u1 b1|] eqn:E1; [|discriminate].
  destruct (Workspace.setItem (i +:+ "-fileName") fileName b1) as [u2 b2|] eqn:E2;
    [|discriminate].
  intros [= <- <-].
  apply setItem_state in E1 as [-> _].
  apply setItem_state in E2 as [-> Hq]. simpl in Hq.
  rewrite setItem_again; [rewrite setItem_again; [reflexivity | | exact Hq] | | exact Hq];
    simpl.
  - apply lookup_insert_eq.
  - rewrite lookup_insert_ne.
    2:{ intros E. symmetry in E. exact (code_key_not_fileName_key _ _ E). }
    apply lookup_insert_eq.
Qed.

Lemma X19_save_is_idempotent_witness :
  Workspace.saveCodeToWorkspace "export default 1" "app.tsx" None 42%N
    {| Workspace.storage :=
         <["workspace-42-fileName" := "app.tsx"]>
           (<["workspace-42-code" := "export default 1"]> ∅);
       Workspace.quota := 5000000%N; Workspace.opened := [] |}
  = Return "workspace-42"
      {| Workspace.storage :=
           <["workspace-42-fileName" := "app.tsx"]>
             (<["workspace-42-code" := "export default 1"]> ∅);
         Workspace.quota := 5000000%N; Workspace.opened := [] |}.
Proof.
  apply (X19_save_is_idempotent "export default 1" "app.tsx" None 42%N roomy_browser).
  vm_compute. reflexivity.
Defined.

(** X20. [openIDEWorkspace] called with code stores it: loading the id it
    returns gives that code, under the file name of the metadata or under
    "app.tsx" when the metadata has none; the URL it returns is the
    vscode.dev folder of that id and is the one window it opens; the
    metadata comes back as given. *)
Theorem X20_open_with_code
    (md : Workspace.IDEMetadata) (c : string) (now : N)
    (b b' : Workspace.Browser) (r : Workspace.Opened) :
  Workspace.code md = Some c ->
  c <> "" ->
  Workspace.openIDEWorkspace (Some md) now b = Return r b' ->
  Workspace.loadCodeFromWorkspace (Workspace.workspaceId r) b'
  = Return {| Workspace.loaded_code := Some c;
              Workspace.loaded_fileName :=
                Some (Js.or_else (Workspace.fileName md) "app.tsx") |} b'
  /\ Workspace.workspaceId r = Workspace.fresh_id now
  /\ Workspace.url r = "https://vscode.dev/?folder=/tmp/" +:+ Workspace.workspaceId r
  /\ Workspace.opened b' = Workspace.opened b ++ [Workspace.url r]
  /\ Workspace.metadata r = Some md.
Proof.
  intros Hc Hne.
  unfold Workspace.openIDEWorkspace, bind, ret, Workspace.window_open, modify.
  rewrite Hc.
  assert (Ht : Js.truthy (Some c) = true) by (simpl; now rewrite (eqb_empty_false c Hne)).
  rewrite Ht, (or_else_some c "" Hne).
  set (w := Workspace.fresh_id now). clearbody w.
  destruct (Workspace.setItem _ c b) as [u1 b1|] eqn:E1; [|discriminate].
  destruct (Workspace.setItem _ _ b1) as [u2 b2|] eqn:E2; [|discriminate].
  intros [= <- <-]. simpl.
  apply setItem_state in E1 as [-> _]. apply setItem_state in E2 as [-> _]. simpl.
  rewrite load_eq. simpl. repeat split. f_equal. f_equal.
  - rewrite lookup_insert_ne.
    2:{ intros E. symmetry in E. exact (code_key_not_fileName_key _ _ E). }
    apply lookup_insert_eq.
  - apply lookup_insert_eq.
Qed.

Lemma X20_open_with_code_witness :
  exists r b',
    Workspace.openIDEWorkspace
      (Some {| Workspace.code := Some "export default 1"; Workspace.fileName := None |})
      42%N roomy_browser
    = Return r b'
    /\ Workspace.loadCodeFromWorkspace (Workspace.workspaceId r) b'
       = Return {| Workspace.loaded_code := Some "export default 1";
                   Workspace.loaded_fileName := Some "app.tsx" |} b'
    /\ Workspace.workspaceId r = "workspace-42"
    /\ Workspace.url r = "https://vscode.dev/?folder=/tmp/" +:+ Workspace.workspaceId r
    /\ Workspace.opened b' = [] ++ [Workspace.url r]
    /\ Workspace.metadata r
       = Some {| Workspace.code := Some "export default 1"; Workspace.fileName := None |}.
Proof.
  eexists. eexists.
  assert (H : Workspace.openIDEWorkspace
                (Some {| Workspace.code := Some "export default 1";
                         Workspace.fileName := None |})
                42%N roomy_browser
              = Return
                  {| Workspace.workspaceId := "workspace-42";
                     Workspace.url := "https://vscode.dev/?folder=/tmp/workspace-42";
                     Workspace.metadata :=
                       Some {| Workspace.code := Some "export default 1";
                               Workspace.fileName := None |} |}
                  {| Workspace.storage :=
                       <["workspace-42-fileName" := "app.tsx"]>
                         (<["workspace-42-code" := "export default 1"]> ∅);
                     Workspace.quota := 5000000%N;
                     Workspace.opened := ["https://vscode.dev/?folder=/tmp/workspace-42"] |})
    by (vm_compute; reflexivity).
  split; [exact H|].
  apply (X20_open_with_code
           {| Workspace.code := Some "export default 1"; Workspace.fileName := None |}
           "export default 1" 42%N roomy_browser _ _ eq_refl ltac:(discriminate) H).
Defined.

(** X21. [openIDEWorkspace] raises only when it has code to store and the
    store has no room for it, and then opens no window; called without
    metadata, or with metadata without code, it never raises, leaves the
    store untouched and opens its window. *)
Theorem X21_open_failure_opens_nothing
    (md : option Workspace.IDEMetadata) (now : N) (b : Workspace.Browser) :
  (forall e b',
      Workspace.openIDEWorkspace md now b = Throw e b' ->
      e = QuotaExceededError
      /\ Workspace.opened b' = Workspace.opened b
      /\ exists m, md = Some m /\ Js.truthy (Workspace.code m) = true)
  /\ (md = None \/ (exists m, md = Some m /\ Js.truthy (Workspace.code m) = false) ->
      exists r,
        Workspace.openIDEWorkspace md now b
        = Return r
            {| Workspace.storage := Workspace.storage b;
               Workspace.quota := Workspace.quota b;
               Workspace.opened := Workspace.opened b ++ [Workspace.url r] |}).
Proof.
  unfold Workspace.openIDEWorkspace, bind, ret, Workspace.window_open, modify.
  split.
  - intros e b'. destruct md as [m|]; [|discriminate].
    destruct (Js.truthy (Workspace.code m)) eqn:Ht; [|discriminate].
    destruct (Workspace.setItem _ _ b) as [u1 b1|e1 b1] eqn:E1.
    + destruct (Workspace.setItem _ _ b1) as [u2 b2|e2 b2] eqn:E2; [discriminate|].
      intros [= <- <-].
      apply setItem_state in E1 as [-> _]. apply setItem_raises in E2 as [-> ->].
      repeat split. eauto.
    + intros [= <- <-]. apply setItem_raises in E1 as [-> ->]. repeat split. eauto.
  - intros Hmd.
    exists {| Workspace.workspaceId := Workspace.fresh_id now;
              Workspace.url := "https://vscode.dev/?folder=/tmp/" +:+ Workspace.fresh_id now;
              Workspace.metadata := md |}.
    destruct Hmd as [-> | (m & -> & Ht)]; [|rewrite Ht]; reflexivity.
Qed.

(** The decimal rendering of a number ends with a digit. *)
Lemma pretty_N_go_suffix (x : N) (s : string) :
  exists pre, pretty_N_go x s = pre +:+ s.
Proof.
  revert s. induction (N.lt_wf_0 x) as [x _ IH]; intros s.
  destruct (decide (0 < x)%N) as [Hx|Hx].
  - rewrite pretty_N_go_step by exact Hx.
    destruct (IH (x `div` 10)%N (N.div_lt x 10 Hx eq_refl)
                 (String (pretty_N_char (x `mod` 10)) s)) as [pre Hpre].
    exists (pre +:+ String (pretty_N_char (x `mod` 10)) ""). rewrite Hpre.
    now rewrite string_app_assoc.
  - assert (x = 0%N) as -> by lia. exists "". reflexivity.
Qed.

Lemma pretty_N_last (n : N) :
  exists pre x, pretty n = pre +:+ String (pretty_N_char x) "".
Proof.
  unfold pretty, pretty_N. destruct (decide (n = 0%N)) as [->|Hn].
  - exists "", 0%N. reflexivity.
  - rewrite pretty_N_go_step by lia.
    destruct (pretty_N_go_suffix (n `div` 10)%N (String (pretty_N_char (n `mod` 10)) ""))
      as [pre Hpre].
    exists pre, (n `mod` 10)%N. exact Hpre.
Qed.

Lemma digit_is_not_a_letter (x : N) :
  pretty_N_char x <> "e"%char /\ pretty_N_char x <> "t"%char.
Proof. unfold pretty_N_char. split; repeat case_match; discriminate. Qed.

Lemma ends_differently (a b : string) (c d : ascii) :
  c <> d -> a +:+ String c "" <> b +:+ String d "".
Proof.
  intros Hne H. apply (f_equal list_ascii_of_string) in H.
  rewrite !list_of_app in H. apply (f_equal (@rev ascii)) in H.
  rewrite !rev_app_distr in H. simpl in H. congruence.
Qed.

Lemma file_key_last (w : string) (j : nat) :
  exists a x, w +:+ "-file-" +:+ pretty j = a +:+ String (pretty_N_char x) "".
Proof.
  destruct (pretty_N_last (N.of_nat j)) as (pre & x & Hp).
  exists (w +:+ "-file-" +:+ pre), x.
  change (pretty j) with (pretty (N.of_nat j)). rewrite Hp.
  now rewrite !string_app_assoc.
Qed.

(** The key of a file of a workspace is no other key of any workspace. *)
Lemma file_key_not_code (w w' : string) (j : nat) :
  w +:+ "-file-" +:+ pretty j <> w' +:+ "-code".
Proof.
  destruct (file_key_last w j) as (a & x & ->).
  change (w' +:+ "-code") with (w' +:+ ("-cod" +:+ String "e" "")).
  rewrite <- string_app_assoc. apply ends_differently, digit_is_not_a_letter.
Qed.

Lemma file_key_not_fileName (w w' : string) (j : nat) :
  w +:+ "-file-" +:+ pretty j <> w' +:+ "-fileName".
Proof.
  destruct (file_key_last w j) as (a & x & ->).
  change (w' +:+ "-fileName") with (w' +:+ ("-fileNam" +:+ String "e" "")).
  rewrite <- string_app_assoc. apply ends_differently, digit_is_not_a_letter.
Qed.

Lemma file_key_not_fileCount (w w' : string) (j : nat) :
  w +:+ "-file-" +:+ pretty j <> w' +:+ "-fileCount".
Proof.
  destruct (file_key_last w j) as (a & x & ->).
  change (w' +:+ "-fileCount") with (w' +:+ ("-fileCoun" +:+ String "t" "")).
  rewrite <- string_app_assoc. apply ends_differently, digit_is_not_a_letter.
Qed.

Lemma fileCount_key_not_code (w w' : string) :
  w +:+ "-fileCount" <> w' +:+ "-code" /\ w +:+ "-fileCount" <> w' +:+ "-fileName".
Proof.
  split; intros H; apply (f_equal list_ascii_of_string) in H;
    rewrite !list_of_app in H; apply (f_equal (@rev ascii)) in H;
    rewrite !rev_app_distr in H; simpl in H; discriminate.
Qed.

Lemma file_key_inj (w : string) (i j : nat) :
  w +:+ "-file-" +:+ pretty i = w +:+ "-file-" +:+ pretty j -> i = j.
Proof.
  intros H. apply (inj (String.append w)) in H.
  apply (inj (String.append "-file-")) in H. now apply (inj pretty) in H.
Qed.

Section FromFilesProperties.

Variable stringify : WorkspaceFiles.Source -> string.

(** The loop writes under the keys of its files only, whether it ends or
    raises. *)
Lemma write_files_frame (w : string) (files : list WorkspaceFiles.Source) (k : nat)
    (b : Workspace.Browser) (key : string) :
  (forall j, k <= j -> key <> w +:+ "-file-" +:+ pretty j) ->
  match WorkspaceFiles.write_files stringify w k files b with
  | Return _ b' | Throw _ b' =>
      Workspace.storage b' !! key = Workspace.storage b !! key
  end.
Proof.
  revert k b. induction files as [|f files IH]; intros k b Hkey; simpl.
  - reflexivity.
  - unfold bind.
    destruct (Workspace.setItem _ _ b) as [u b1|e b1] eqn:E.
    + apply setItem_state in E as [-> _].
      specialize (IH (S k) {| Workspace.storage :=
                                <[w +:+ "-file-" +:+ pretty k := stringify f]>
                                  (Workspace.storage b);
                              Workspace.quota := Workspace.quota b;
                              Workspace.opened := Workspace.opened b |}).
      assert (Hk : forall j, S k <= j -> key <> w +:+ "-file-" +:+ pretty j)
        by (intros j Hj; apply Hkey; lia).
      specialize (IH Hk).
      destruct (WorkspaceFiles.write_files stringify w (S k) files _);
        rewrite IH; simpl; apply lookup_insert_ne; intros E; symmetry in E;
        exact (Hkey k (le_n k) E).
    + apply setItem_raises in E as [_ ->]. reflexivity.
Qed.

Lemma write_files_raises (w : string) (files : list WorkspaceFiles.Source) (k : nat)
    (b b' : Workspace.Browser) (e : Exn) :
  WorkspaceFiles.write_files stringify w k files b = Throw e b' ->
  e = QuotaExceededError.
Proof.
  revert k b. induction files as [|f files IH]; intros k b; simpl.
  - discriminate.
  - unfold bind. destruct (Workspace.setItem _ _ b) as [u b1|e1 b1] eqn:E.
    + apply IH.
    + intros [= <- _]. now apply setItem_raises in E as [-> _].
Qed.

Lemma write_files_lookup (w : string) (files : list WorkspaceFiles.Source) (k : nat)
    (b b' : Workspace.Browser) (u : unit) :
  WorkspaceFiles.write_files stringify w k files b = Return u b' ->
  forall j f, files !! j = Some f ->
    Workspace.storage b' !! (w +:+ "-file-" +:+ pretty (k + j)) = Some (stringify f).
Proof.
  revert k b. induction files as [|f0 files IH]; intros k b H j f Hj.
  - discriminate.
  - simpl in H. unfold bind in H.
    destruct (Workspace.setItem _ _ b) as [u1 b1|] eqn:E; [|discriminate].
    destruct j as [|j]; simpl in Hj.
    + injection Hj as <-. rewrite Nat.add_0_r.
      pose proof (write_files_frame w files (S k) b1
                    (w +:+ "-file-" +:+ pretty k)) as F.
      rewrite H in F. rewrite F.
      * apply setItem_state in E as [-> _]. simpl. apply lookup_insert_eq.
      * intros i Hi Ek. apply file_key_inj in Ek. lia.
    + replace (k + S j) with (S k + j) by lia. exact (IH _ _ H j f Hj).
Qed.

End FromFilesProperties.

(** X22. A workspace created from files holds, under the id returned, the
    number of files under [<id>-fileCount] and each file, in its rendering
    by [JSON.stringify], under [<id>-file-<index>], the indices counting
    from 0 in the order of the list. *)
Theorem X22_workspace_from_files
    (stringify : WorkspaceFiles.Source -> string)
    (files : list WorkspaceFiles.Source) (now : N)
    (b b' : Workspace.Browser) (id : string) :
  WorkspaceFiles.createWorkspaceFromFiles stringify files now b = Return id b' ->
  id = Workspace.fresh_id now
  /\ Workspace.storage b' !! (id +:+ "-fileCount") = Some (pretty (length files))
  /\ forall j f, files !! j = Some f ->
       Workspace.storage b' !! (id +:+ "-file-" +:+ pretty j) = Some (stringify f).
Proof.
  unfold WorkspaceFiles.createWorkspaceFromFiles, bind, ret.
  set (w := Workspace.fresh_id now). clearbody w.
  destruct (WorkspaceFiles.write_files stringify w 0 files b) as [u1 b1|] eqn:E1;
    [|discriminate].
  destruct (Workspace.setItem _ _ b1) as [u2 b2|] eqn:E2; [|discriminate].
  intros [= <- <-]. apply setItem_state in E2 as [-> _]. simpl.
  split; [reflexivity|]. split; [apply lookup_insert_eq|].
  intros j f Hj. rewrite lookup_insert_ne.
  - exact (write_files_lookup stringify w files 0 b b1 u1 E1 j f Hj).
  - intros E. symmetry in E. exact (file_key_not_fileCount _ _ _ E).
Qed.

Lemma X22_workspace_from_files_witness :
  exists b',
    WorkspaceFiles.createWorkspaceFromFiles sample_stringify
      [ {| WorkspaceFiles.name := "a.ts"; WorkspaceFiles.content := "1" |};
        {| WorkspaceFiles.name := "b.ts"; WorkspaceFiles.content := "2" |} ]
      7%N roomy_browser
    = Return "workspace-7" b'
    /\ "workspace-7" = Workspace.fresh_id 7
    /\ Workspace.storage b' !! "workspace-7-fileCount" = Some "2"
    /\ forall j f,
         [ {| WorkspaceFiles.name := "a.ts"; WorkspaceFiles.content := "1" |};
           {| WorkspaceFiles.name := "b.ts"; WorkspaceFiles.content := "2" |} ] !! j
         = Some f ->
         Workspace.storage b' !! ("workspace-7" +:+ "-file-" +:+ pretty j)
         = Some (sample_stringify f).
Proof.
  eexists.
  assert (H : WorkspaceFiles.createWorkspaceFromFiles sample_stringify
                [ {| WorkspaceFiles.name := "a.ts"; WorkspaceFiles.content := "1" |};
                  {| WorkspaceFiles.name := "b.ts"; WorkspaceFiles.content := "2" |} ]
                7%N roomy_browser
              = Return "workspace-7"
                  {| Workspace.storage :=
                       <["workspace-7-fileCount" := "2"]>
                         (<["workspace-7-file-1" := "b.ts:2"]>
                            (<["workspace-7-file-0" := "a.ts:1"]> ∅));
                     Workspace.quota := 5000000%N; Workspace.opened := [] |})
    by (vm_compute; reflexivity).
  split; [exact H|].
  exact (X22_workspace_from_files sample_stringify _ 7%N roomy_browser _ _ H).
Defined.

(** X23. Creating a workspace from files, whether it ends or raises, writes
    no code entry and no file-name entry: what [loadCodeFromWorkspace]
    returns for any id, the new one included, is what it returned before. *)
Theorem X23_from_files_is_not_loadable
    (stringify : WorkspaceFiles.Source -> string)
    (files : list WorkspaceFiles.Source) (now : N)
    (b : Workspace.Browser) (other : string) :
  match WorkspaceFiles.createWorkspaceFromFiles stringify files now b with
  | Return _ b' | Throw _ b' =>
      exists l, Workspace.loadCodeFromWorkspace other b' = Return l b'
                /\ Workspace.loadCodeFromWorkspace other b = Return l b
  end.
Proof.
  unfold WorkspaceFiles.createWorkspaceFromFiles, bind, ret.
  set (w := Workspace.fresh_id now). clearbody w.
  pose proof (write_files_frame stringify w files 0 b (other +:+ "-code")) as Fc.
  pose proof (write_files_frame stringify w files 0 b (other +:+ "-fileName")) as Ff.
  assert (Hc : forall j, 0 <= j -> other +:+ "-code" <> w +:+ "-file-" +:+ pretty j).
  { intros j _ E. symmetry in E. exact (file_key_not_code _ _ _ E). }
  assert (Hf : forall j, 0 <= j -> other +:+ "-fileName" <> w +:+ "-file-" +:+ pretty j).
  { intros j _ E. symmetry in E. exact (file_key_not_fileName _ _ _ E). }
  specialize (Fc Hc). specialize (Ff Hf).
  destruct (WorkspaceFiles.write_files stringify w 0 files b) as [u1 b1|e1 b1].
  - destruct (Workspace.setItem _ _ b1) as [u2 b2|e2 b2] eqn:E2.
    + apply setItem_state in E2 as [-> _].
      eexists. split; [apply load_eq|]. rewrite load_eq. simpl.
      rewrite !lookup_insert_ne, Fc, Ff; [reflexivity | |];
        apply fileCount_key_not_code.
    + apply setItem_raises in E2 as [_ ->].
      eexists. split; [apply load_eq|]. rewrite load_eq, Fc, Ff. reflexivity.
  - eexists. split; [apply load_eq|]. rewrite load_eq, Fc, Ff. reflexivity.
Qed.

(** X24. The file count is written last: when creating a workspace from
    files raises, for want of room, the entry [<id>-fileCount] of the new
    id is what it was before the call, whatever files were written. *)
Theorem X24_failed_creation_has_no_count
    (stringify : WorkspaceFiles.Source -> string)
    (files : list WorkspaceFiles.Source) (now : N)
    (b b' : Workspace.Browser) (e : Exn) :
  WorkspaceFiles.createWorkspaceFromFiles stringify files now b = Throw e b' ->
  e = QuotaExceededError
  /\ Workspace.storage b' !! (Workspace.fresh_id now +:+ "-fileCount")
     = Workspace.storage b !! (Workspace.fresh_id now +:+ "-fileCount").
Proof.
  unfold WorkspaceFiles.createWorkspaceFromFiles, bind, ret.
  set (w := Workspace.fresh_id now). clearbody w.
  pose proof (write_files_frame stringify w files 0 b (w +:+ "-fileCount")) as F.
  assert (Hk : forall j, 0 <= j -> w +:+ "-fileCount" <> w +:+ "-file-" +:+ pretty j).
  { intros j _ E. symmetry in E. exact (file_key_not_fileCount _ _ _ E). }
  specialize (F Hk).
  destruct (WorkspaceFiles.write_files stringify w 0 files b) as [u1 b1|e1 b1] eqn:E1.
  - destruct (Workspace.setItem _ _ b1) as [u2 b2|e2 b2] eqn:E2; [discriminate|].
    intros [= <- <-]. apply setItem_raises in E2 as [-> ->]. split; [reflexivity | exact F].
  - intros [= <- <-]. split; [|exact F].
    exact (write_files_raises stringify _ _ _ _ _ _ E1).
Qed.

Lemma X24_failed_creation_has_no_count_witness :
  QuotaExceededError = QuotaExceededError
  /\ Workspace.storage
       {| Workspace.storage := <["workspace-7-file-0" := "a.ts:1"]> ∅;
          Workspace.quota := 60%N; Workspace.opened := [] |}
       !! (Workspace.fresh_id 7 +:+ "-fileCount")
     = Workspace.storage small_browser !! (Workspace.fresh_id 7 +:+ "-fileCount").
Proof.
  apply (X24_failed_creation_has_no_count sample_stringify
           [ {| WorkspaceFiles.name := "a.ts"; WorkspaceFiles.content := "1" |};
             {| WorkspaceFiles.name := "b.ts";
                WorkspaceFiles.content := "a much longer second file" |} ]
           7%N small_browser
           {| Workspace.storage := <["workspace-7-file-0" := "a.ts:1"]> ∅;
              Workspace.quota := 60%N; Workspace.opened := [] |}
           QuotaExceededError).
  vm_compute. reflexivity.
Defined.

(** ** Deployment: the endpoint and the client together *)

(** X25. The answer of the deploy endpoint has one of two shapes.  It
    reports success exactly for the platforms "vercel" and "github",
    spelled so; it has a [repoUrl] exactly when it reports success, a [url]
    exactly for "vercel", and an [error] exactly when it does not report
    success. *)
Theorem X25_deploy_answer_shape
    (body : option Deploy.Request) (now1 now2 : N) :
  (Deploy.success (Deploy.POST body now1 now2) = true
   <-> exists r, body = Some r
                 /\ (Deploy.platform r = "vercel" \/ Deploy.platform r = "github"))
  /\ (is_Some (Deploy.url (Deploy.POST body now1 now2))
      <-> exists r, body = Some r /\ Deploy.platform r = "vercel")
  /\ (is_Some (Deploy.repoUrl (Deploy.POST body now1 now2))
      <-> Deploy.success (Deploy.POST body now1 now2) = true)
  /\ (is_Some (Deploy.error (Deploy.POST body now1 now2))
      <-> Deploy.success (Deploy.POST body now1 now2) = false).
Proof.
  unfold Deploy.POST. destruct body as [r|]; simpl.
  - destruct (String.eqb (Deploy.platform r) "vercel") eqn:Ev;
      [|destruct (String.eqb (Deploy.platform r) "github") eqn:Eg]; simpl;
      rewrite ?String.eqb_eq, ?String.eqb_neq in *;
      repeat split; intros; eauto;
      repeat match goal with
             | H : is_Some None |- _ => destruct H as [? H]; discriminate H
             | H : exists _, _ |- _ => destruct H as [? H]
             | H : _ /\ _ |- _ => destruct H
             | H : _ \/ _ |- _ => destruct H
             | H : Some _ = Some _ |- _ => injection H as <-
             end; try congruence; try discriminate.
  - repeat split; intros; eauto;
      repeat match goal with
             | H : is_Some None |- _ => destruct H as [? H]; discriminate H
             | H : exists _, _ |- _ => destruct H as [? H]
             | H : _ /\ _ |- _ => destruct H
             end; try congruence; try discriminate.
Qed.

(** X26. Through the endpoint of this repository a deployment from the
    component always succeeds, for both platforms.  The repository URL of
    the message is the one the endpoint made from its clock reading; the
    deployment URL is that of the endpoint for vercel, and for github,
    where the endpoint sends none, the message shows the word
    "undefined". *)
Theorem X26_deploy_through_the_endpoint
    (p : Deploy.Platform) (now1 now2 now : N) (s : Deploy.IDE) :
  exists s' m,
    Deploy.handleDeploy (Deploy.endpoint now1 now2) p now s = Return tt s'
    /\ Deploy.deploymentStatus s' = Deploy.succeeded
    /\ Deploy.messages s' = Deploy.messages s ++ [m]
    /\ Deploy.to m = Deploy.platform_name p
    /\ match p with
       | Deploy.vercel =>
           Deploy.deploymentUrl m = "https://your-app-" +:+ pretty now1 +:+ ".vercel.app"
           /\ Deploy.repository m = "https://github.com/user/your-app-" +:+ pretty now2
       | Deploy.github =>
           Deploy.deploymentUrl m = "undefined"
           /\ Deploy.repository m = "https://github.com/user/your-app-" +:+ pretty now1
       end.
Proof.
  destruct (handleDeploy_outcome (Deploy.endpoint now1 now2) p now s)
    as (s' & Hrun & _ & H).
  destruct p; simpl in H; destruct H as (Hs & _ & Hm);
    exists s'; eexists; (split; [exact Hrun|]); (split; [exact Hs|]);
    (split; [exact Hm|]); simpl; repeat split.
Qed.

(** X27. A deployment never edits the component's code, file name or file
    tree and never drops or alters a message: it adds at most one message
    at the end, and one timer of 3000 milliseconds. *)
Theorem X27_deploy_leaves_the_editor
    (fetch : Deploy.Request -> Deploy.FetchResult) (p : Deploy.Platform) (now : N)
    (s : Deploy.IDE) :
  exists s',
    Deploy.handleDeploy fetch p now s = Return tt s'
    /\ Deploy.codeContent s' = Deploy.codeContent s
    /\ Deploy.currentFile s' = Deploy.currentFile s
    /\ Deploy.tree s' = Deploy.tree s
    /\ Deploy.timers s' = Deploy.timers s ++ [(3000, Deploy.idle)]
    /\ exists added, Deploy.messages s' = Deploy.messages s ++ added
                     /\ length added <= 1.
Proof.
  unfold Deploy.handleDeploy, bind, try_catch, get, Deploy.fetch_json; simpl.
  destruct (fetch _) as [| | |d]; simpl;
    try (eexists; split; [reflexivity|]; simpl; repeat split;
         exists []; rewrite app_nil_r; split; [reflexivity | simpl; lia]).
  destruct (Deploy.success d); simpl.
  - eexists. split; [reflexivity|]. simpl. repeat split.
    eexists. split; [reflexivity | simpl; lia].
  - eexists. split; [reflexivity|]. simpl. repeat split.
    exists []. rewrite app_nil_r. split; [reflexivity | simpl; lia].
Qed.

(** X28. [handleDeploy] does not look at the current status: called while
    the status is deploying, or succeeded, or failed, it runs exactly as
    from idle.  Two states that differ in the status only give the same
    result. *)
Theorem X28_deploy_ignores_the_status
    (fetch : Deploy.Request -> Deploy.FetchResult) (p : Deploy.Platform) (now : N)
    (s1 s2 : Deploy.IDE) :
  Deploy.statusLog s1 = Deploy.statusLog s2 ->
  Deploy.messages s1 = Deploy.messages s2 ->
  Deploy.timers s1 = Deploy.timers s2 ->
  Deploy.codeContent s1 = Deploy.codeContent s2 ->
  Deploy.currentFile s1 = Deploy.currentFile s2 ->
  Deploy.tree s1 = Deploy.tree s2 ->
  Deploy.handleDeploy fetch p now s1 = Deploy.handleDeploy fetch p now s2.
Proof.
  destruct s1, s2; simpl. intros -> -> -> -> -> ->.
  unfold Deploy.handleDeploy, bind, try_catch, get, Deploy.fetch_json; simpl.
  reflexivity.
Qed.

Lemma X28_deploy_ignores_the_status_witness :
  Deploy.handleDeploy (Deploy.endpoint 5%N 6%N) Deploy.vercel 7%N editing
  = Deploy.handleDeploy (Deploy.endpoint 5%N 6%N) Deploy.vercel 7%N mid_deploy.
Proof.
  apply (X28_deploy_ignores_the_status (Deploy.endpoint 5%N 6%N) Deploy.vercel 7%N
           editing mid_deploy); reflexivity.
Defined.
